(** * Verification of the video-analysis script

    The script [analyzeYouTubeVideo] lists the files already stored by the
    generative-AI service, reuses the one called "files/ai-persuasion" or
    uploads the local video, polls the file until it leaves the PROCESSING
    state, and then sends one content-generation request.

    The script is embedded as an interaction tree: every call that leaves
    the process (file manager, model, timer, console) is an event, the
    [while] loop is the library's [iter], and JavaScript exceptions are the
    left summand of ExtLib's [eitherT].  An [Oracle] plays the remote
    service; [run] is a fuelled interpreter that answers the events from the
    oracle and records them in a trace.

    The file gives the data model and the script first, then the
    interpreter with the vocabulary used to describe traces, then the
    equations of the interpreter, and last the properties of each step of
    the script: resolve, wait for ready, generate, and the whole run.  The
    start-up code of the module is [main]: the check of the API key and
    the call of [analyzeYouTubeVideo]; building the two clients makes no
    call and leaves no trace. *)

From Stdlib Require Import String List ZArith Lia Bool Arith DecimalString.
From Stdlib Require QArith.
From ExtLib Require Import Structures.Monad Structures.MonadExc Structures.MonadTrans
  Data.Monads.EitherMonad.
From ITree Require Import ITree Eq.Shallow.

Import ListNotations.
Import MonadNotation.
Local Open Scope string_scope.
Local Open Scope list_scope.
Local Open Scope monad_scope.

(** ** Data model *)

(** A JavaScript [Error] value: only its message is observed. *)
Inductive JsError : Type := Error (message : string).

(** Modelled from the spec: the enumeration [FileState] is imported from the
    SDK and not declared in the repository.  The spec lists the processing
    states processing, active and failed; [STATE_UNSPECIFIED] stands for any
    other value the service may report, so that "neither PROCESSING nor
    FAILED" is not silently identified with ACTIVE. *)
Inductive FileState : Type := STATE_UNSPECIFIED | PROCESSING | ACTIVE | FAILED.

Definition FileState_eqb (a b : FileState) : bool :=
  match a, b with
  | STATE_UNSPECIFIED, STATE_UNSPECIFIED
  | PROCESSING, PROCESSING
  | ACTIVE, ACTIVE
  | FAILED, FAILED => true
  | _, _ => false
  end.

(** The fields of the SDK's [FileMetadataResponse] that the script reads. *)
Record FileMetadataResponse : Type := {
  name : string;
  displayName : string;
  mimeType : string;
  uri : string;
  state : FileState
}.

(** [listFilesResponse?.files ?? []] tolerates a missing [files] member. *)
Record ListFilesResponse : Type := {
  files : option (list FileMetadataResponse)
}.

Record UploadFileResponse : Type := {
  file : FileMetadataResponse
}.

(** Second argument of [fileManager.uploadFile]. *)
Module FileMetadata.
Record t : Type := {
  mimeType : string;
  displayName : string;
  name : string
}.
End FileMetadata.

(** *** The generation request *)

Inductive SchemaType : Type := STRING | NUMBER | ARRAY | OBJECT.

(** A function-declaration schema: [type], and where the source gives them
    [properties] with [required], or [items]. *)
#[warnings="-register-all"]
Inductive Schema : Type :=
| SchemaObject (properties : list (string * Schema)) (required : list string)
| SchemaArray (items : Schema)
| SchemaScalar (type : SchemaType).

Module FunctionDeclaration.
Record t : Type := {
  name : string;
  parameters : Schema;
  description : string
}.
End FunctionDeclaration.

Record Tool : Type := {
  functionDeclarations : list FunctionDeclaration.t
}.

Inductive Part : Type :=
| FileDataPart (mimeType : string) (fileUri : string)
| TextPart (text : string).

Record Content : Type := {
  role : string;
  parts : list Part
}.

Inductive HarmCategory : Type := HARM_CATEGORY_HARASSMENT.
Inductive HarmBlockThreshold : Type := BLOCK_MEDIUM_AND_ABOVE.

Record SafetySetting : Type := {
  category : HarmCategory;
  threshold : HarmBlockThreshold
}.

Record GenerationConfig : Type := {
  temperature : QArith_base.Q;
  topK : Z;
  topP : Z;
  maxOutputTokens : Z
}.

Inductive FunctionCallingMode : Type := ANY.

Record FunctionCallingConfig : Type := {
  mode : FunctionCallingMode
}.

Record ToolConfig : Type := {
  functionCallingConfig : FunctionCallingConfig
}.

Record GenerateContentRequest : Type := {
  contents : list Content;
  safetySettings : list SafetySetting;
  generationConfig : GenerationConfig;
  toolConfig : ToolConfig;
  tools : list Tool
}.

(** *** The generation response *)

Record CountTokensResponse : Type := {
  totalTokens : Z
}.

(** A function call selected by the model: its name and its arguments, the
    latter kept as the JSON text the service sent. *)
Module FunctionCall.
Record t : Type := {
  name : string;
  args : string
}.
End FunctionCall.

(** Modelled from the spec: the response type and its accessor belong to
    the SDK and are not declared in the repository.  The spec has the
    generation call return "either selected function-call invocations or
    none": [result.response.functionCalls()] yields the calls the model
    selected, [undefined] ([None]) when the response holds none, or it
    throws. *)
Record EnhancedGenerateContentResponse : Type := {
  functionCalls : JsError + option (list FunctionCall.t)
}.

Record GenerateContentResult : Type := {
  response : EnhancedGenerateContentResponse
}.

(** ** Events *)

(** An argument of [console.log] or [console.error].  [JSON.stringify] is
    not rendered: the entry keeps the value that is printed. *)
Inductive LogArg : Type :=
| LogString (s : string)
| LogFile (f : FileMetadataResponse)
| LogError (e : JsError)
| LogJson (functions : list FunctionCall.t).

(** Calls that leave the script.  An awaited SDK call answers with the value
    the promise resolves to, or with the error it rejects with. *)
Variant apiE : Type -> Type :=
| ListFiles : apiE (JsError + option ListFilesResponse)
| UploadFile (path : string) (metadata : FileMetadata.t)
    : apiE (JsError + UploadFileResponse)
| GetFile (fileId : string) : apiE (JsError + FileMetadataResponse)
| CountTokens (request : GenerateContentRequest)
    : apiE (JsError + CountTokensResponse)
| GenerateContent (request : GenerateContentRequest)
    : apiE (JsError + GenerateContentResult)
| SetTimeout (ms : Z) : apiE unit
| StdoutWrite (s : string) : apiE unit
| ConsoleLog (args : list LogArg) : apiE unit
| ConsoleError (args : list LogArg) : apiE unit.

(** The script's monad: interaction trees over [apiE] that may throw. *)
Definition Script : Type -> Type := eitherT JsError (itree apiE).

(** [await call]: a rejected promise is thrown at the [await]. *)
Definition await {T : Type} (e : apiE (JsError + T)) : Script T :=
  mkEitherT (ITree.trigger e).

(** A call that cannot fail. *)
Definition perform {T : Type} (e : apiE T) : Script T :=
  lift (ITree.trigger e).

(** A synchronous call that returns or throws. *)
Definition returned {T : Type} (r : JsError + T) : Script T :=
  match r with
  | inl error => raise error
  | inr v => ret v
  end.

(** Conversion of a number inside a template literal. *)
Definition numberToString (n : Z) : string :=
  NilZero.string_of_int (Z.to_int n).

(** ** The script *)

(** Lines 76-183: the request sent to [countTokens] and [generateContent]. *)
Definition request (videoFile : FileMetadataResponse) : GenerateContentRequest :=
  {| contents := [
       {| role := "user";
          parts := [
            FileDataPart (mimeType videoFile) (uri videoFile);
            TextPart "Make a YouTube title, description, chapters, tags, and a 1000 word blog post in markdown format best for this video including images from the video."
          ] |} ];
     safetySettings := [
       {| category := HARM_CATEGORY_HARASSMENT;
          threshold := BLOCK_MEDIUM_AND_ABOVE |} ];
     generationConfig :=
       {| temperature := QArith_base.Qmake 2 10;
          topK := 1;
          topP := 1;
          maxOutputTokens := 4000 |};
     toolConfig := {| functionCallingConfig := {| mode := ANY |} |};
     tools := [
       {| functionDeclarations := [
            {| FunctionDeclaration.name := "get_title";
               FunctionDeclaration.parameters :=
                 SchemaObject [("title", SchemaScalar STRING)] ["title"];
               FunctionDeclaration.description :=
                 "Create a great YouTube title for this video that is less than 6 words" |};
            {| FunctionDeclaration.name := "get_summary";
               FunctionDeclaration.parameters :=
                 SchemaObject [("summary", SchemaScalar STRING)] ["summary"];
               FunctionDeclaration.description :=
                 "Summarize this video and create an awesome YouTube description that is less than 100 words" |};
            {| FunctionDeclaration.name := "get_chapters";
               FunctionDeclaration.parameters :=
                 SchemaObject
                   [("chapters",
                     SchemaArray
                       (SchemaObject
                          [("timestamp", SchemaScalar NUMBER);
                           ("title", SchemaScalar STRING)]
                          ["timestamp"; "title"]))]
                   ["chapters"];
               FunctionDeclaration.description :=
                 "Extract max 10 video chapters with timestamps and a unique title based on the content of the video" |};
            {| FunctionDeclaration.name := "get_tags";
               FunctionDeclaration.parameters :=
                 SchemaObject
                   [("tags", SchemaArray (SchemaScalar STRING))] ["tags"];
               FunctionDeclaration.description :=
                 "Extract max 10 video tags best for YouTube" |};
            {| FunctionDeclaration.name := "get_blog";
               FunctionDeclaration.parameters :=
                 SchemaObject
                   [("blog", SchemaScalar STRING);
                    ("paragraphs", SchemaArray (SchemaScalar STRING));
                    ("images", SchemaArray (SchemaScalar STRING))]
                   ["blog"; "paragraphs"; "images"];
               FunctionDeclaration.description :=
                 "Create at least a 3000+ word blog post in markdown format best for this video including images from the video, in an array of paragraphs and images" |}
          ] |} ]
  |}.

(** Lines 34-39: the scan of the listing.  [videoFile] is assigned at every
    entry whose name is "files/ai-persuasion"; the loop has no [break]. *)
Fixpoint scanFiles (listing : list FileMetadataResponse)
    (videoFile : option FileMetadataResponse)
    : Script (option FileMetadataResponse) :=
  match listing with
  | [] => ret videoFile
  | file :: rest =>
      if String.eqb (name file) "files/ai-persuasion"
      then
        perform (ConsoleLog [LogString "using existing file"; LogFile file]) ;;
        scanFiles rest (Some file)
      else scanFiles rest videoFile
  end.

(** [listFilesResponse?.files ?? []] *)
Definition filesOrEmpty (listFilesResponse : option ListFilesResponse)
    : list FileMetadataResponse :=
  match listFilesResponse with
  | Some r => match files r with
              | Some l => l
              | None => []
              end
  | None => []
  end.

(** Lines 29-53: list the remote files, reuse the named one or upload. *)
Definition resolveRemoteFile : Script FileMetadataResponse :=
  listFilesResponse <- await ListFiles ;;
  videoFile <- scanFiles (filesOrEmpty listFilesResponse) None ;;
  match videoFile with
  | Some f => ret f
  | None =>
      perform (ConsoleLog [LogString "Uploading file..."]) ;;
      uploadResponse <-
        await (UploadFile "./videos/video.mp4"
                 {| FileMetadata.mimeType := "video/mp4";
                    FileMetadata.displayName := "AI Persuasion";
                    FileMetadata.name := "ai-persuasion" |}) ;;
      perform (ConsoleLog
        [LogString ("Uploaded file " ++ displayName (file uploadResponse)
                      ++ " as: " ++ uri (file uploadResponse))]) ;;
      ret (file uploadResponse)
  end.

(** Lines 56-62: one turn of the [while] loop. *)
Definition pollOnce (videoFile file : FileMetadataResponse)
    : Script (FileMetadataResponse + FileMetadataResponse) :=
  if FileState_eqb (state file) PROCESSING
  then
    perform (StdoutWrite ".") ;;
    perform (SetTimeout 5000) ;;
    file' <- await (GetFile (name videoFile)) ;;
    ret (inl file')
  else ret (inr file).

(** Lines 55-66: poll until the state is not PROCESSING, throw on FAILED. *)
Definition awaitReady (videoFile : FileMetadataResponse)
    : Script FileMetadataResponse :=
  file <- Basics.iter (pollOnce videoFile) videoFile ;;
  if FileState_eqb (state file) FAILED
  then raise (Error "Video processing failed.")
  else ret file.

(** Lines 185-196: the body of the [try] block. *)
Definition generateBody (videoFile : FileMetadataResponse) : Script unit :=
  countResult <- await (CountTokens (request videoFile)) ;;
  perform (ConsoleLog
    [LogString ("Token count: " ++ numberToString (totalTokens countResult))]) ;;
  result <- await (GenerateContent (request videoFile)) ;;
  functions <- returned (functionCalls (response result)) ;;
  match functions with
  | None => perform (ConsoleLog [LogString "No functions called"])
  | Some calls => perform (ConsoleLog [LogJson calls])
  end.

(** Lines 72-200: [try { ... } catch (error) { console.error(...) }]. *)
Definition generate (videoFile : FileMetadataResponse) : Script unit :=
  catch (generateBody videoFile)
    (fun error =>
       perform (ConsoleError
         [LogString "Error generating content:"; LogError error])).

(** Lines 55-200: the rest of the function once [videoFile] is set.  The
    request is built from [videoFile]; the file fetched last is only named
    in the console line. *)
Definition inference (videoFile : FileMetadataResponse) : Script unit :=
  file <- awaitReady videoFile ;;
  perform (ConsoleLog
    [LogString ("File " ++ displayName file ++ " is ready for inference as "
                  ++ uri file)]) ;;
  generate videoFile.

(** Lines 26-201. *)
Definition analyzeYouTubeVideo : Script unit :=
  videoFile <- resolveRemoteFile ;;
  inference videoFile.

(** ** The remote service and the interpreter *)

(** The remote service, as the script can observe it: what each call
    resolves to or rejects with.  [getFile] is the only call the script
    repeats; its answer may depend on how many fetches came before. *)
Record Oracle : Type := {
  listFiles : JsError + option ListFilesResponse;
  uploadFile : string -> FileMetadata.t -> JsError + UploadFileResponse;
  getFile : nat -> string -> JsError + FileMetadataResponse;
  countTokens : GenerateContentRequest -> JsError + CountTokensResponse;
  generateContent : GenerateContentRequest -> JsError + GenerateContentResult
}.

(** A recorded call, and the trace of one execution, oldest call first. *)
Definition Call : Type := {T : Type & apiE T}.
Definition call {T : Type} (e : apiE T) : Call := existT _ T e.
Definition Trace : Type := list Call.

Definition isGetFile (c : Call) : bool :=
  match projT2 c with GetFile _ => true | _ => false end.

Definition isUploadFile (c : Call) : bool :=
  match projT2 c with UploadFile _ _ => true | _ => false end.

Definition isCountTokens (c : Call) : bool :=
  match projT2 c with CountTokens _ => true | _ => false end.

Definition isGenerateContent (c : Call) : bool :=
  match projT2 c with GenerateContent _ => true | _ => false end.

Definition count (p : Call -> bool) (w : Trace) : nat := length (filter p w).

(** The oracle's answer to an event, after the calls in [w]. *)
Definition answer (o : Oracle) (w : Trace) {T : Type} (e : apiE T) : T :=
  match e with
  | ListFiles => listFiles o
  | UploadFile path metadata => uploadFile o path metadata
  | GetFile fileId => getFile o (count isGetFile w) fileId
  | CountTokens r => countTokens o r
  | GenerateContent r => generateContent o r
  | SetTimeout _ => tt
  | StdoutWrite _ => tt
  | ConsoleLog _ => tt
  | ConsoleError _ => tt
  end.

(** [run o fuel t w] executes [t] against [o] from the trace [w].  Every
    event and every silent step costs one unit of fuel.  The result is the
    fuel left, the trace so far, and the value returned, [None] while [t]
    is still running when the fuel is spent. *)
Fixpoint run (o : Oracle) (fuel : nat) {R : Type} (t : itree apiE R) (w : Trace)
    : nat * Trace * option R :=
  match observe t with
  | RetF r => (fuel, w, Some r)
  | TauF t' =>
      match fuel with
      | 0 => (0, w, None)
      | S fuel' => run o fuel' t' w
      end
  | VisF e k =>
      match fuel with
      | 0 => (0, w, None)
      | S fuel' => run o fuel' (k (answer o w e)) (w ++ [call e])
      end
  end.

(** [run] on a script. *)
Definition runS (o : Oracle) (fuel : nat) {R : Type} (s : Script R) (w : Trace)
    : nat * Trace * option (JsError + R) :=
  run o fuel (unEitherT s) w.

(** What is known of an execution after some steps: the promise of the
    [async] function is still pending, has resolved, or has rejected with
    the error thrown.  Each case carries the calls made so far. *)
Inductive Outcome (R : Type) : Type :=
| Pending (trace : Trace)
| Resolved (trace : Trace) (value : R)
| Rejected (trace : Trace) (error : JsError).

Arguments Pending {R}.
Arguments Resolved {R}.
Arguments Rejected {R}.

Definition traceOf {R : Type} (out : Outcome R) : Trace :=
  match out with
  | Pending w => w
  | Resolved w _ => w
  | Rejected w _ => w
  end.

Definition settled {R : Type} (out : Outcome R) : bool :=
  match out with
  | Pending _ => false
  | _ => true
  end.

(** The execution of script [s] from trace [w], observed after [fuel] steps. *)
Definition exec (o : Oracle) (fuel : nat) {R : Type} (s : Script R) (w : Trace)
    : Outcome R :=
  match runS o fuel s w with
  | (_, w', Some (inr v)) => Resolved w' v
  | (_, w', Some (inl e)) => Rejected w' e
  | (_, w', None) => Pending w'
  end.

(** [s] run from [w] ends with [out], whatever fuel it is given beyond
    some point. *)
Definition finishes (o : Oracle) {R : Type} (s : Script R) (w : Trace)
    (out : Outcome R) : Prop :=
  settled out = true /\
  exists fuel, forall fuel', fuel <= fuel' -> exec o fuel' s w = out.

(** [s] run from [w] never ends. *)
Definition diverges (o : Oracle) {R : Type} (s : Script R) (w : Trace) : Prop :=
  forall fuel, settled (exec o fuel s w) = false.

(** ** Vocabulary for traces, and scenarios *)

(** The entries of a listing that carry the name the script looks for. *)
Definition named (f : FileMetadataResponse) : bool :=
  String.eqb (name f) "files/ai-persuasion".

(** The console lines the scan prints: one per matching entry. *)
Definition usingExisting (listing : list FileMetadataResponse) : Trace :=
  map (fun f => call (ConsoleLog [LogString "using existing file"; LogFile f]))
      (filter named listing).

(** The upload call of lines 44-48. *)
Definition uploadMetadata : FileMetadata.t :=
  {| FileMetadata.mimeType := "video/mp4";
     FileMetadata.displayName := "AI Persuasion";
     FileMetadata.name := "ai-persuasion" |}.

Definition theUpload : Call :=
  call (UploadFile "./videos/video.mp4" uploadMetadata).

Definition uploadedLine (u : UploadFileResponse) : Call :=
  call (ConsoleLog
    [LogString ("Uploaded file " ++ displayName (file u)
                  ++ " as: " ++ uri (file u))]).

(** The calls of one turn of the loop: a dot, the 5000 ms timer, one fetch. *)
Definition pollCalls (fileId : string) : Trace :=
  [call (StdoutWrite "."); call (SetTimeout 5000); call (GetFile fileId)].

(** The calls of [k] turns. *)
Fixpoint polls (fileId : string) (k : nat) : Trace :=
  match k with
  | 0 => []
  | S k' => pollCalls fileId ++ polls fileId k'
  end.

Definition tokenCountLine (c : CountTokensResponse) : Call :=
  call (ConsoleLog
    [LogString ("Token count: " ++ numberToString (totalTokens c))]).

Definition errorLine (error : JsError) : Call :=
  call (ConsoleError [LogString "Error generating content:"; LogError error]).

(** The entry of the first scenario of the spec: already ACTIVE. *)
Definition activeFile : FileMetadataResponse :=
  {| name := "files/ai-persuasion";
     displayName := "AI Persuasion";
     mimeType := "video/mp4";
     uri := "https://generativelanguage.googleapis.com/v1beta/files/ai-persuasion";
     state := ACTIVE |}.

Definition withState (f : FileMetadataResponse) (s : FileState)
    : FileMetadataResponse :=
  {| name := name f; displayName := displayName f; mimeType := mimeType f;
     uri := uri f; state := s |}.

(** A service that lists [listing], accepts the upload with a file in state
    [uploaded], answers the fetches with the states [fetched] (then with
    [ACTIVE]), counts 1000 tokens and selects no function. *)
Definition service (listing : option (list FileMetadataResponse))
    (uploaded : FileState) (fetched : list FileState) : Oracle :=
  {| listFiles := inr (Some {| files := listing |});
     uploadFile := fun _ _ => inr {| file := withState activeFile uploaded |};
     getFile := fun i fileId =>
       inr (withState activeFile (nth i fetched ACTIVE));
     countTokens := fun _ => inr {| totalTokens := 1000 |};
     generateContent := fun _ =>
       inr {| response := {| functionCalls := inr None |} |} |}.

(** A listing with two entries of the same name: FAILED, then PROCESSING. *)
Definition staleCopy : FileMetadataResponse := withState activeFile FAILED.
Definition freshCopy : FileMetadataResponse := withState activeFile PROCESSING.

(** The calls of the resolve step when nothing is reused, up to the upload. *)
Definition uploadAttempt : Trace :=
  [call ListFiles;
   call (ConsoleLog [LogString "Uploading file..."]);
   call (UploadFile "./videos/video.mp4"
           {| FileMetadata.mimeType := "video/mp4";
              FileMetadata.displayName := "AI Persuasion";
              FileMetadata.name := "ai-persuasion" |})].

(** A service whose fetches always answer PROCESSING. *)
Definition stuckService : Oracle :=
  {| listFiles := inr None;
     uploadFile := fun _ _ => inr {| file := withState activeFile PROCESSING |};
     getFile := fun _ _ => inr (withState activeFile PROCESSING);
     countTokens := fun _ => inr {| totalTokens := 1000 |};
     generateContent := fun _ =>
       inr {| response := {| functionCalls := inr None |} |} |}.

Definition readyLine (file : FileMetadataResponse) : Call :=
  call (ConsoleLog
    [LogString ("File " ++ displayName file ++ " is ready for inference as "
                  ++ uri file)]).

(** A model whose [countTokens] rejects, behind a service that lists the
    ACTIVE file. *)
Definition quotaError : JsError := Error "429 Too Many Requests".

Definition countFails : Oracle :=
  {| listFiles := inr (Some {| files := Some [activeFile] |});
     uploadFile := fun _ _ => inr {| file := activeFile |};
     getFile := fun _ _ => inr activeFile;
     countTokens := fun _ => inl quotaError;
     generateContent := fun _ =>
       inr {| response := {| functionCalls := inr None |} |} |}.

(** ** The module body, and further vocabulary *)

(** Lines 10-13 and 203: the module throws when the environment variable
    is missing (an empty string is falsy as well), builds the clients and
    calls [analyzeYouTubeVideo].  [GEMINI_API_KEY] is the value of
    [process.env.GEMINI_API_KEY], [None] when it is not set. *)
Definition main (GEMINI_API_KEY : option string) : Script unit :=
  match GEMINI_API_KEY with
  | None => raise (Error "Environment variable GEMINI_API_KEY is missing.")
  | Some key =>
      if String.eqb key ""
      then raise (Error "Environment variable GEMINI_API_KEY is missing.")
      else analyzeYouTubeVideo
  end.

Definition isListFiles (c : Call) : bool :=
  match projT2 c with ListFiles => true | _ => false end.

(** The calls to the generative model. *)
Definition isModelCall (c : Call) : bool :=
  isCountTokens c || isGenerateContent c.

(** The calls of the generate step, as the answers of the model decide
    them: the token count, then either the error line, or the count line,
    the generation call and one last console line. *)
Definition generateCalls (o : Oracle) (videoFile : FileMetadataResponse)
    : Trace :=
  call (CountTokens (request videoFile)) ::
  match countTokens o (request videoFile) with
  | inl e => [errorLine e]
  | inr c =>
      [tokenCountLine c;
       call (GenerateContent (request videoFile));
       match generateContent o (request videoFile) with
       | inl e => errorLine e
       | inr res =>
           match functionCalls (response res) with
           | inl e => errorLine e
           | inr None => call (ConsoleLog [LogString "No functions called"])
           | inr (Some calls) => call (ConsoleLog [LogJson calls])
           end
       end]
  end.

(** A service whose listing call rejects. *)
Definition listFails : Oracle :=
  {| listFiles := inl quotaError;
     uploadFile := fun _ _ => inr {| file := activeFile |};
     getFile := fun _ _ => inr activeFile;
     countTokens := fun _ => inr {| totalTokens := 1000 |};
     generateContent := fun _ =>
       inr {| response := {| functionCalls := inr None |} |} |}.

(** A service that lists nothing and rejects the upload. *)
Definition uploadFails : Oracle :=
  {| listFiles := inr (Some {| files := Some [] |});
     uploadFile := fun _ _ => inl quotaError;
     getFile := fun _ _ => inr activeFile;
     countTokens := fun _ => inr {| totalTokens := 1000 |};
     generateContent := fun _ =>
       inr {| response := {| functionCalls := inr None |} |} |}.

(** A service whose first fetch answers PROCESSING and whose second fetch
    rejects. *)
Definition fetchFails : Oracle :=
  {| listFiles := inr (Some {| files := Some [] |});
     uploadFile := fun _ _ => inr {| file := withState activeFile PROCESSING |};
     getFile := fun i _ =>
       match i with
       | 0 => inr (withState activeFile PROCESSING)
       | _ => inl quotaError
       end;
     countTokens := fun _ => inr {| totalTokens := 1000 |};
     generateContent := fun _ =>
       inr {| response := {| functionCalls := inr None |} |} |}.

(** A model that selects the function [get_title]. *)
Definition titleCall : FunctionCall.t :=
  {| FunctionCall.name := "get_title";
     FunctionCall.args := "{ title: How Machines Persuade }" |}.

Definition selectsTitle : Oracle :=
  {| listFiles := inr (Some {| files := Some [activeFile] |});
     uploadFile := fun _ _ => inr {| file := activeFile |};
     getFile := fun _ _ => inr activeFile;
     countTokens := fun _ => inr {| totalTokens := 1000 |};
     generateContent := fun _ =>
       inr {| response := {| functionCalls := inr (Some [titleCall]) |} |} |}.

(** ** Equations of the interpreter *)

Section Interpreter.

Variable o : Oracle.

Lemma run_unfold {R : Type} (n : nat) (t : itree apiE R) (w : Trace) :
  run o n t w =
  match observe t with
  | RetF r => (n, w, Some r)
  | TauF t' =>
      match n with
      | 0 => (0, w, None)
      | S n' => run o n' t' w
      end
  | VisF e k =>
      match n with
      | 0 => (0, w, None)
      | S n' => run o n' (k (answer o w e)) (w ++ [call e])
      end
  end.
Proof. destruct n; reflexivity. Qed.

(** [run] only looks at a tree through [observe]. *)
Lemma run_observe {R : Type} (n : nat) (w : Trace) (t t' : itree apiE R) :
  observe t = observe t' -> run o n t w = run o n t' w.
Proof. intros H. rewrite (run_unfold n t), (run_unfold n t'), H. reflexivity. Qed.

Lemma run_Ret {R : Type} (n : nat) (r : R) (w : Trace) :
  run o n (Ret r) w = (n, w, Some r).
Proof. destruct n; reflexivity. Qed.

Lemma run_Tau {R : Type} (n : nat) (t : itree apiE R) (w : Trace) :
  run o (S n) (Tau t) w = run o n t w.
Proof. reflexivity. Qed.

Lemma run_trigger {T : Type} (n : nat) (e : apiE T) (w : Trace) :
  run o (S n) (ITree.trigger e) w = (n, w ++ [call e], Some (answer o w e)).
Proof. cbn. apply run_Ret. Qed.

(** A sequence runs its first part, then the second on the fuel left. *)
Lemma run_bind {A B : Type} (n : nat) (t : itree apiE A)
    (k : A -> itree apiE B) (w : Trace) :
  run o n (ITree.bind t k) w =
  match run o n t w with
  | (n', w', Some r) => run o n' (k r) w'
  | (n', w', None) => (n', w', None)
  end.
Proof.
  revert t w; induction n as [|n IH]; intros t w.
  - rewrite (run_unfold 0 (ITree.bind t k)), (run_unfold 0 t), observe_bind.
    destruct (observe t) as [r|t'|X e h]; reflexivity.
  - rewrite (run_unfold (S n) (ITree.bind t k)), (run_unfold (S n) t),
      observe_bind.
    destruct (observe t) as [r|t'|X e h]; cbn.
    + reflexivity.
    + apply IH.
    + apply IH.
Qed.

Lemma run_iter {R I : Type} (n : nat) (step : I -> itree apiE (I + R))
    (i : I) (w : Trace) :
  run o n (ITree.iter step i) w =
  match run o n (step i) w with
  | (n', w', Some (inl i')) =>
      match n' with
      | 0 => (0, w', None)
      | S n'' => run o n'' (ITree.iter step i') w'
      end
  | (n', w', Some (inr r)) => (n', w', Some r)
  | (n', w', None) => (n', w', None)
  end.
Proof.
  rewrite (@run_observe _ n w (ITree.iter step i)
             (ITree.bind (step i)
                (fun lr => match lr with
                           | inl l => Tau (ITree.iter step l)
                           | inr r => Ret r
                           end)) eq_refl).
  rewrite run_bind.
  destruct (run o n (step i) w) as [[n' w'] [[i'|r]|]]; try reflexivity.
  - destruct n'; reflexivity.
  - apply run_Ret.
Qed.

(** Fuel that was not needed is handed back. *)
Lemma run_more {R : Type} (n m : nat) (t : itree apiE R) (w : Trace)
    (n' : nat) (w' : Trace) (r : R) :
  run o n t w = (n', w', Some r) ->
  run o (n + m) t w = (n' + m, w', Some r).
Proof.
  revert t w; induction n as [|n IH]; intros t w;
    rewrite (run_unfold _ t), (run_unfold (_ + m) t);
    destruct (observe t) as [r0|t'|X e h]; cbn;
    try discriminate; try apply IH.
  - intros H; injection H as <- <- <-; reflexivity.
  - intros H; injection H as <- <- <-; reflexivity.
Qed.

(** *** Equations for scripts *)

Lemma runS_ret {R : Type} (n : nat) (v : R) (w : Trace) :
  runS o n (ret v) w = (n, w, Some (inr v)).
Proof. apply run_Ret. Qed.

Lemma runS_raise {R : Type} (n : nat) (e : JsError) (w : Trace) :
  runS o n (raise e : Script R) w = (n, w, Some (inl e)).
Proof. apply run_Ret. Qed.

Lemma runS_returned {R : Type} (n : nat) (r : JsError + R) (w : Trace) :
  runS o n (returned r) w = (n, w, Some r).
Proof. destruct r; apply run_Ret. Qed.

Lemma runS_await {T : Type} (n : nat) (e : apiE (JsError + T)) (w : Trace) :
  runS o (S n) (await e) w = (n, w ++ [call e], Some (answer o w e)).
Proof. apply run_trigger. Qed.

Lemma runS_perform {T : Type} (n : nat) (e : apiE T) (w : Trace) :
  runS o (S n) (perform e) w = (n, w ++ [call e], Some (inr (answer o w e))).
Proof.
  unfold runS, perform; cbn.
  change (ITree.subst ?k ?t) with (ITree.bind t k).
  rewrite run_bind, run_Ret. apply run_Ret.
Qed.

Lemma runS_await_0 {T : Type} (e : apiE (JsError + T)) (w : Trace) :
  runS o 0 (await e) w = (0, w, None).
Proof. reflexivity. Qed.

Lemma runS_perform_0 {T : Type} (e : apiE T) (w : Trace) :
  runS o 0 (perform e) w = (0, w, None).
Proof. reflexivity. Qed.

(** [s ;; k]: an error thrown by [s] skips [k]. *)
Lemma runS_bind {A B : Type} (n : nat) (s : Script A) (k : A -> Script B)
    (w : Trace) :
  runS o n (bind s k) w =
  match runS o n s w with
  | (n', w', Some (inr v)) => runS o n' (k v) w'
  | (n', w', Some (inl e)) => (n', w', Some (inl e))
  | (n', w', None) => (n', w', None)
  end.
Proof.
  unfold runS; cbn. rewrite run_bind.
  destruct (run o n (unEitherT s) w) as [[n' w'] [[e|v]|]]; try reflexivity.
  apply run_Ret.
Qed.

(** [try { s } catch (e) { h e }]: a value of [s] skips [h]. *)
Lemma runS_catch {A : Type} (n : nat) (s : Script A) (h : JsError -> Script A)
    (w : Trace) :
  runS o n (catch s h) w =
  match runS o n s w with
  | (n', w', Some (inr v)) => (n', w', Some (inr v))
  | (n', w', Some (inl e)) => runS o n' (h e) w'
  | (n', w', None) => (n', w', None)
  end.
Proof.
  unfold runS; cbn. rewrite run_bind.
  destruct (run o n (unEitherT s) w) as [[n' w'] [[e|v]|]]; try reflexivity.
  apply run_Ret.
Qed.

(** [while]: one turn, then a silent step back to the loop head. *)
Lemma runS_iter {R I : Type} (n : nat) (step : I -> Script (I + R)) (i : I)
    (w : Trace) :
  runS o n (Basics.iter step i) w =
  match runS o n (step i) w with
  | (n', w', Some (inr (inl i'))) =>
      match n' with
      | 0 => (0, w', None)
      | S n'' => runS o n'' (Basics.iter step i') w'
      end
  | (n', w', Some (inr (inr r))) => (n', w', Some (inr r))
  | (n', w', Some (inl e)) => (n', w', Some (inl e))
  | (n', w', None) => (n', w', None)
  end.
Proof.
  unfold runS; cbn. unfold Basics.iter, MonadIter_itree.
  rewrite run_iter, run_bind.
  destruct (run o n (unEitherT (step i)) w) as [[n' w'] [[e|[i'|r]]|]];
    try rewrite run_Ret; reflexivity.
Qed.

(** *** Settled executions *)

Lemma exec_more {R : Type} (n m : nat) (s : Script R) (w : Trace) :
  settled (exec o n s w) = true -> exec o (n + m) s w = exec o n s w.
Proof.
  unfold exec, runS.
  destruct (run o n (unEitherT s) w) as [[n' w'] [r|]] eqn:E; [|discriminate].
  intros _. apply run_more with (m := m) in E. rewrite E. reflexivity.
Qed.

Lemma finishes_intro {R : Type} (n : nat) (s : Script R) (w : Trace)
    (out : Outcome R) :
  exec o n s w = out -> settled out = true -> finishes o s w out.
Proof.
  intros E H; split; [exact H|].
  exists n; intros m Hm.
  replace m with (n + (m - n)) by lia.
  rewrite exec_more; rewrite E; auto.
Qed.

Lemma finishes_unique {R : Type} (s : Script R) (w : Trace)
    (out1 out2 : Outcome R) :
  finishes o s w out1 -> finishes o s w out2 -> out1 = out2.
Proof.
  intros [_ [n1 H1]] [_ [n2 H2]].
  rewrite <- (H1 (n1 + n2)), <- (H2 (n1 + n2)) by lia. reflexivity.
Qed.

Lemma diverges_not_finishes {R : Type} (s : Script R) (w : Trace)
    (out : Outcome R) :
  diverges o s w -> ~ finishes o s w out.
Proof.
  intros D [H [n Hn]]. specialize (D n). rewrite (Hn n) in D by lia.
  congruence.
Qed.

End Interpreter.

Section Composition.

Variable o : Oracle.

Lemma finishes_runS {R : Type} (s : Script R) (w : Trace) (out : Outcome R) :
  finishes o s w out ->
  exists n n' r, (forall m, runS o (n + m) s w = (n' + m, traceOf out, Some r)) /\
                 out = match r with
                       | inr v => Resolved (traceOf out) v
                       | inl e => Rejected (traceOf out) e
                       end.
Proof.
  intros [Hset [n Hn]]. specialize (Hn n (Nat.le_refl n)).
  unfold exec in Hn.
  destruct (runS o n s w) as [[n' w'] [[e|v]|]] eqn:E; subst out;
    try discriminate; exists n, n'.
  - exists (inl e). split; [|reflexivity].
    intros m; apply run_more; exact E.
  - exists (inr v). split; [|reflexivity].
    intros m; apply run_more; exact E.
Qed.

Lemma finishes_of_run {R : Type} (s : Script R) (w : Trace) (n n' : nat)
    (w' : Trace) (r : JsError + R) :
  runS o n s w = (n', w', Some r) ->
  finishes o s w match r with
                 | inr v => Resolved w' v
                 | inl e => Rejected w' e
                 end.
Proof.
  intros E. apply finishes_intro with (n := n).
  - unfold exec. rewrite E. destruct r; reflexivity.
  - destruct r; reflexivity.
Qed.

Lemma finishes_bind {A B : Type} (s : Script A) (k : A -> Script B)
    (w w1 : Trace) (v : A) (out : Outcome B) :
  finishes o s w (Resolved w1 v) ->
  finishes o (k v) w1 out ->
  finishes o (bind s k) w out.
Proof.
  intros Hs [Hset [n2 H2]].
  destruct (finishes_runS _ _ _ Hs) as [n [n' [r [Hr Er]]]].
  destruct r as [e|v']; [discriminate|]. injection Er as <-.
  cbn [traceOf] in Hr.
  apply finishes_intro with (n := n + n2); [|exact Hset].
  unfold exec. rewrite runS_bind, Hr. apply H2. lia.
Qed.

Lemma finishes_bind_rejected {A B : Type} (s : Script A) (k : A -> Script B)
    (w w1 : Trace) (e : JsError) :
  finishes o s w (Rejected w1 e) ->
  finishes o (bind s k) w (Rejected w1 e).
Proof.
  intros Hs.
  destruct (finishes_runS _ _ _ Hs) as [n [n' [r [Hr Er]]]].
  destruct r as [e'|v']; [|discriminate]. injection Er as <-.
  cbn [traceOf] in Hr.
  apply finishes_intro with (n := n); [|reflexivity].
  unfold exec. rewrite runS_bind, <- (Nat.add_0_r n), Hr. reflexivity.
Qed.

(** A run that is still going after [n] steps has not ended earlier. *)
Lemma pending_before {R : Type} (s : Script R) (w : Trace) (n m : nat) :
  settled (exec o (n + m) s w) = false -> settled (exec o n s w) = false.
Proof.
  intros H. destruct (settled (exec o n s w)) eqn:E; [|reflexivity].
  rewrite exec_more in H by exact E. congruence.
Qed.

(** A sequence whose first part never ends never ends. *)
Lemma diverges_bind {A B : Type} (s : Script A) (k : A -> Script B) (w : Trace) :
  diverges o s w -> diverges o (bind s k) w.
Proof.
  intros D fuel. specialize (D fuel). unfold exec in *. rewrite runS_bind.
  destruct (runS o fuel s w) as [[n' w'] [[e|v]|]]; try discriminate.
  reflexivity.
Qed.

(** A sequence whose second part never ends never ends. *)
Lemma diverges_after {A B : Type} (s : Script A) (k : A -> Script B)
    (w w1 : Trace) (v : A) :
  finishes o s w (Resolved w1 v) ->
  diverges o (k v) w1 ->
  diverges o (bind s k) w.
Proof.
  intros Hs D fuel.
  destruct (finishes_runS _ _ _ Hs) as [n [n' [r [Hr Er]]]].
  destruct r as [e|v']; [discriminate|]. injection Er as <-.
  cbn [traceOf] in Hr.
  apply pending_before with (m := n). rewrite Nat.add_comm.
  specialize (D (n' + fuel)). unfold exec in *.
  rewrite runS_bind, Hr. exact D.
Qed.

End Composition.

(** *** Traces only grow *)

Section Traces.

Variable o : Oracle.

Lemma run_trace_from {R : Type} (n : nat) :
  forall (t : itree apiE R) (w : Trace),
    exists rest, snd (fst (run o n t w)) = w ++ rest.
Proof.
  induction n as [|n IH]; intros t w; rewrite run_unfold;
    destruct (observe t) as [r|t'|X e k]; cbn [fst snd];
    try (exists []; rewrite app_nil_r; reflexivity).
  - apply IH.
  - destruct (IH (k (answer o w e)) (w ++ [call e])) as [rest E].
    exists (call e :: rest). rewrite E, <- app_assoc. reflexivity.
Qed.

Lemma run_trace_more {R : Type} (n m : nat) :
  forall (t : itree apiE R) (w : Trace),
    exists rest,
      snd (fst (run o (n + m) t w)) = snd (fst (run o n t w)) ++ rest.
Proof.
  induction n as [|n IH]; intros t w.
  - rewrite (run_unfold o 0 t).
    destruct (observe t) as [r|t'|X e k] eqn:E; cbn [fst snd plus].
    + rewrite run_unfold, E. exists []. rewrite app_nil_r. reflexivity.
    + apply run_trace_from.
    + apply run_trace_from.
  - rewrite (run_unfold o (S n + m) t), (run_unfold o (S n) t).
    destruct (observe t) as [r|t'|X e k]; cbn [fst snd plus].
    + exists []. rewrite app_nil_r. reflexivity.
    + apply IH.
    + apply IH.
Qed.

Lemma exec_trace {R : Type} (n : nat) (s : Script R) (w : Trace) :
  traceOf (exec o n s w) = snd (fst (runS o n s w)).
Proof.
  unfold exec. destruct (runS o n s w) as [[n' w'] [[e|v]|]]; reflexivity.
Qed.

(** What an execution has done after [n] steps stays done. *)
Lemma exec_trace_more {R : Type} (n m : nat) (s : Script R) (w : Trace) :
  n <= m ->
  exists rest, traceOf (exec o m s w) = traceOf (exec o n s w) ++ rest.
Proof.
  intros H. rewrite !exec_trace. replace m with (n + (m - n)) by lia.
  apply run_trace_more.
Qed.

End Traces.

(** Symbolic execution of straight-line script code. *)
Ltac run_script :=
  repeat (rewrite ?runS_bind, ?runS_catch, ?runS_perform, ?runS_await,
            ?runS_ret, ?runS_raise, ?runS_returned;
          cbn [answer]).

(** ** Counting calls in a trace *)

Lemma count_app (p : Call -> bool) (w1 w2 : Trace) :
  count p (w1 ++ w2) = count p w1 + count p w2.
Proof. unfold count. rewrite filter_app, length_app. reflexivity. Qed.

Lemma count_usingExisting (p : Call -> bool) (l : list FileMetadataResponse) :
  (forall args, p (call (ConsoleLog args)) = false) ->
  count p (usingExisting l) = 0.
Proof.
  intros Hp. unfold usingExisting, count.
  induction (filter named l) as [|f fs IH]; [reflexivity|].
  cbn [map filter]. rewrite Hp. exact IH.
Qed.

Lemma count_polls_GetFile (fileId : string) (k : nat) :
  count isGetFile (polls fileId k) = k.
Proof.
  induction k as [|k IH]; [reflexivity|].
  cbn [polls]. rewrite count_app, IH. reflexivity.
Qed.

Lemma count_polls_other (p : Call -> bool) (fileId : string) (k : nat) :
  count p (pollCalls fileId) = 0 -> count p (polls fileId k) = 0.
Proof.
  intros Hp. induction k as [|k IH]; [reflexivity|].
  cbn [polls]. rewrite count_app, IH, Hp. reflexivity.
Qed.

(** ** The resolve step: reuse or upload *)

Section Resolve.

Variable o : Oracle.

Lemma last_cons {A : Type} (x d : A) (l : list A) :
  last (x :: l) d = last l x.
Proof.
  revert x d; induction l as [|y l IH]; intros x d; [reflexivity|].
  change (last (x :: y :: l) d) with (last (y :: l) d).
  rewrite IH. symmetry. apply IH.
Qed.

Lemma runS_scanFiles (listing : list FileMetadataResponse) :
  forall (videoFile : option FileMetadataResponse) (n : nat) (w : Trace),
    runS o (length (filter named listing) + n) (scanFiles listing videoFile) w =
    (n, w ++ usingExisting listing,
     Some (inr (last (map Some (filter named listing)) videoFile))).
Proof.
  induction listing as [|f rest IH]; intros videoFile n w.
  - cbn [scanFiles filter length map last usingExisting plus].
    rewrite runS_ret, app_nil_r. reflexivity.
  - unfold usingExisting. cbn [scanFiles filter]. fold (named f).
    destruct (named f) eqn:Hf.
    + cbn [length plus map]. run_script. rewrite IH.
      unfold usingExisting. rewrite <- app_assoc. cbn [app].
      f_equal. f_equal. f_equal. symmetry. apply last_cons.
    + apply IH.
Qed.

(** The scan keeps the last matching entry. *)
Lemma last_named (l1 l2 : list FileMetadataResponse) (f : FileMetadataResponse)
    (d : option FileMetadataResponse) :
  named f = true ->
  (forall g, In g l2 -> named g = false) ->
  last (map Some (filter named (l1 ++ f :: l2))) d = Some f.
Proof.
  intros Hf Hl2.
  assert (E : filter named l2 = []).
  { induction l2 as [|g l2 IH]; [reflexivity|]. cbn.
    rewrite (Hl2 g) by (left; reflexivity).
    apply IH; intros h Hh; apply Hl2; right; exact Hh. }
  rewrite filter_app. cbn [filter]. rewrite Hf, E, map_app. cbn [map].
  apply last_last.
Qed.

Lemma filter_named_nil (l : list FileMetadataResponse) :
  (forall g, In g l -> named g = false) -> filter named l = [].
Proof.
  induction l as [|g l IH]; intros H; [reflexivity|]. cbn.
  rewrite (H g) by (left; reflexivity).
  apply IH; intros h Hh; apply H; right; exact Hh.
Qed.

(** A listing with a matching entry splits at its last matching entry. *)
Lemma split_last_named (l : list FileMetadataResponse) (e : FileMetadataResponse) :
  In e l -> named e = true ->
  exists l1 f l2, l = l1 ++ f :: l2 /\ named f = true /\
                  forall g, In g l2 -> named g = false.
Proof.
  revert e; induction l as [|g l IH]; intros e Hin He; [destruct Hin|].
  destruct (existsb named l) eqn:Ex.
  - apply existsb_exists in Ex. destruct Ex as [e' [Hin' He']].
    destruct (IH e' Hin' He') as [l1 [f [l2 [-> [Hf Hl2]]]]].
    exists (g :: l1), f, l2. repeat split; auto.
  - exists [], g, l. destruct Hin as [->|Hin].
    + repeat split; auto. intros h Hh.
      destruct (named h) eqn:Hn; [|reflexivity].
      assert (existsb named l = true) by (apply existsb_exists; eauto).
      congruence.
    + assert (existsb named l = true) by (apply existsb_exists; eauto).
      congruence.
Qed.

(** The listing has a matching entry: no upload. *)
Lemma runS_resolve_reuse (r : option ListFilesResponse)
    (l1 l2 : list FileMetadataResponse) (f : FileMetadataResponse)
    (n : nat) (w : Trace) :
  listFiles o = inr r ->
  filesOrEmpty r = l1 ++ f :: l2 ->
  named f = true ->
  (forall g, In g l2 -> named g = false) ->
  runS o (S (length (filter named (filesOrEmpty r)) + n)) resolveRemoteFile w =
  (n, w ++ call ListFiles :: usingExisting (filesOrEmpty r), Some (inr f)).
Proof.
  intros Hl Hs Hf Hl2.
  assert (L : last (map Some (filter named (filesOrEmpty r))) None = Some f)
    by (rewrite Hs; apply last_named; assumption).
  unfold resolveRemoteFile. run_script. rewrite Hl.
  rewrite runS_bind, runS_scanFiles, L, runS_ret, <- app_assoc. reflexivity.
Qed.

(** No matching entry, the upload resolves. *)
Lemma runS_resolve_upload (r : option ListFilesResponse) (u : UploadFileResponse)
    (n : nat) (w : Trace) :
  listFiles o = inr r ->
  (forall g, In g (filesOrEmpty r) -> named g = false) ->
  uploadFile o "./videos/video.mp4" uploadMetadata = inr u ->
  runS o (4 + n) resolveRemoteFile w =
  (n,
   w ++ [call ListFiles;
         call (ConsoleLog [LogString "Uploading file..."]);
         theUpload;
         uploadedLine u],
   Some (inr (file u))).
Proof.
  intros Hl Hno Hu. unfold resolveRemoteFile. cbn [plus]. run_script.
  rewrite Hl.
  pose proof (runS_scanFiles (filesOrEmpty r) None (3 + n) (w ++ [call ListFiles])) as Hs.
  unfold usingExisting in Hs.
  rewrite (filter_named_nil _ Hno) in Hs. cbn [length plus map last] in Hs.
  rewrite runS_bind, Hs, app_nil_r. run_script.
  rewrite <- !app_assoc. cbn [app]. fold uploadMetadata.
  rewrite Hu. run_script. rewrite <- !app_assoc. reflexivity.
Qed.

(** No matching entry, the upload rejects. *)
Lemma runS_resolve_upload_fails (r : option ListFilesResponse) (e : JsError)
    (n : nat) (w : Trace) :
  listFiles o = inr r ->
  (forall g, In g (filesOrEmpty r) -> named g = false) ->
  uploadFile o "./videos/video.mp4" uploadMetadata = inl e ->
  runS o (3 + n) resolveRemoteFile w =
  (n,
   w ++ [call ListFiles;
         call (ConsoleLog [LogString "Uploading file..."]);
         theUpload],
   Some (inl e)).
Proof.
  intros Hl Hno Hu. unfold resolveRemoteFile. cbn [plus]. run_script.
  rewrite Hl.
  pose proof (runS_scanFiles (filesOrEmpty r) None (2 + n) (w ++ [call ListFiles])) as Hs.
  unfold usingExisting in Hs.
  rewrite (filter_named_nil _ Hno) in Hs. cbn [length plus map last] in Hs.
  rewrite runS_bind, Hs, app_nil_r. run_script.
  rewrite <- !app_assoc. cbn [app]. fold uploadMetadata.
  rewrite Hu. reflexivity.
Qed.

(** The listing call rejects. *)
Lemma runS_resolve_list_fails (e : JsError) (n : nat) (w : Trace) :
  listFiles o = inl e ->
  runS o (1 + n) resolveRemoteFile w = (n, w ++ [call ListFiles], Some (inl e)).
Proof.
  intros Hl. unfold resolveRemoteFile. cbn [plus]. run_script.
  rewrite Hl. reflexivity.
Qed.

End Resolve.

(** C1.  When the listing contains an entry named "files/ai-persuasion",
    the resolve step ends by returning an entry of the listing that
    carries this name (the entry itself when no other entry shares the
    name), and its trace contains no upload call. *)
Theorem resolve_reuses_listed_file (o : Oracle) (r : option ListFilesResponse)
    (e : FileMetadataResponse) :
  listFiles o = inr r ->
  In e (filesOrEmpty r) ->
  name e = "files/ai-persuasion" ->
  exists (f : FileMetadataResponse) (w : Trace),
    finishes o resolveRemoteFile [] (Resolved w f) /\
    In f (filesOrEmpty r) /\
    name f = "files/ai-persuasion" /\
    ((forall g, In g (filesOrEmpty r) -> name g = "files/ai-persuasion" -> g = e)
     -> f = e) /\
    count isUploadFile w = 0.
Proof.
  intros Hl Hin Hname.
  assert (He : named e = true) by (apply String.eqb_eq; exact Hname).
  destruct (split_last_named _ _ Hin He) as [l1 [f [l2 [Hs [Hf Hl2]]]]].
  assert (Hinf : In f (filesOrEmpty r)) by (rewrite Hs; apply in_elt).
  assert (Hnf : name f = "files/ai-persuasion") by (apply String.eqb_eq; exact Hf).
  exists f, ([] ++ call ListFiles :: usingExisting (filesOrEmpty r)).
  split; [|split; [exact Hinf|split; [exact Hnf|split]]].
  - apply (finishes_of_run o resolveRemoteFile []
             (S (length (filter named (filesOrEmpty r)) + 0)) 0 _ (inr f)).
    apply (runS_resolve_reuse o r l1 l2 f 0 [] Hl Hs Hf Hl2).
  - intros Huniq. apply Huniq; assumption.
  - cbn [app]. change (call ListFiles :: ?l) with ([call ListFiles] ++ l).
    rewrite count_app, count_usingExisting by reflexivity. reflexivity.
Qed.

Lemma resolve_reuses_listed_file_witness :
  listFiles (service (Some [activeFile]) ACTIVE []) =
    inr (Some {| files := Some [activeFile] |}) /\
  In activeFile (filesOrEmpty (Some {| files := Some [activeFile] |})) /\
  name activeFile = "files/ai-persuasion" /\
  exists (f : FileMetadataResponse) (w : Trace),
    finishes (service (Some [activeFile]) ACTIVE []) resolveRemoteFile []
      (Resolved w f) /\
    In f (filesOrEmpty (Some {| files := Some [activeFile] |})) /\
    name f = "files/ai-persuasion" /\
    ((forall g, In g (filesOrEmpty (Some {| files := Some [activeFile] |})) ->
                name g = "files/ai-persuasion" -> g = activeFile)
     -> f = activeFile) /\
    count isUploadFile w = 0.
Proof.
  split; [reflexivity|split; [left; reflexivity|split; [reflexivity|]]].
  apply (resolve_reuses_listed_file (service (Some [activeFile]) ACTIVE [])
           (Some {| files := Some [activeFile] |}) activeFile).
  - reflexivity.
  - left; reflexivity.
  - reflexivity.
Defined.

(** C10.  When several entries of the listing are named
    "files/ai-persuasion", the resolve step returns the last of them in
    listing order; the scan visits every entry and prints one line per
    match. *)
Theorem resolve_uses_last_match (o : Oracle) (r : option ListFilesResponse)
    (l1 l2 : list FileMetadataResponse) (f : FileMetadataResponse) :
  listFiles o = inr r ->
  filesOrEmpty r = l1 ++ f :: l2 ->
  name f = "files/ai-persuasion" ->
  (forall g, In g l2 -> name g <> "files/ai-persuasion") ->
  finishes o resolveRemoteFile []
    (Resolved (call ListFiles :: usingExisting (filesOrEmpty r)) f).
Proof.
  intros Hl Hs Hf Hl2.
  apply (finishes_of_run o resolveRemoteFile []
           (S (length (filter named (filesOrEmpty r)) + 0)) 0 _ (inr f)).
  apply (runS_resolve_reuse o r l1 l2 f 0 [] Hl Hs).
  - apply String.eqb_eq; exact Hf.
  - intros g Hg. apply String.eqb_neq. apply Hl2; exact Hg.
Qed.

Lemma resolve_uses_last_match_witness :
  listFiles (service (Some [staleCopy; freshCopy]) ACTIVE []) =
    inr (Some {| files := Some [staleCopy; freshCopy] |}) /\
  filesOrEmpty (Some {| files := Some [staleCopy; freshCopy] |}) =
    [staleCopy] ++ freshCopy :: [] /\
  name freshCopy = "files/ai-persuasion" /\
  finishes (service (Some [staleCopy; freshCopy]) ACTIVE []) resolveRemoteFile []
    (Resolved
       [call ListFiles;
        call (ConsoleLog [LogString "using existing file"; LogFile staleCopy]);
        call (ConsoleLog [LogString "using existing file"; LogFile freshCopy])]
       freshCopy).
Proof.
  split; [reflexivity|split; [reflexivity|split; [reflexivity|]]].
  apply (resolve_uses_last_match (service (Some [staleCopy; freshCopy]) ACTIVE [])
           (Some {| files := Some [staleCopy; freshCopy] |})
           [staleCopy] [] freshCopy).
  - reflexivity.
  - reflexivity.
  - reflexivity.
  - intros g [].
Defined.

(** C2.  When no entry of the listing is named "files/ai-persuasion" (an
    empty or missing list included), the resolve step issues exactly one
    upload call, with MIME type "video/mp4" and display name
    "AI Persuasion".  If the upload resolves, the resolve step returns the
    uploaded file and the rest of the run is [inference] on that file; if
    it rejects, the resolve step rejects with the same error. *)
Theorem resolve_uploads_when_absent (o : Oracle) (r : option ListFilesResponse) :
  listFiles o = inr r ->
  (forall g, In g (filesOrEmpty r) -> name g <> "files/ai-persuasion") ->
  filter isUploadFile uploadAttempt =
    [call (UploadFile "./videos/video.mp4"
             {| FileMetadata.mimeType := "video/mp4";
                FileMetadata.displayName := "AI Persuasion";
                FileMetadata.name := "ai-persuasion" |})] /\
  match uploadFile o "./videos/video.mp4"
          {| FileMetadata.mimeType := "video/mp4";
             FileMetadata.displayName := "AI Persuasion";
             FileMetadata.name := "ai-persuasion" |} with
  | inr u =>
      finishes o resolveRemoteFile []
        (Resolved (uploadAttempt ++ [uploadedLine u]) (file u)) /\
      count isUploadFile (uploadAttempt ++ [uploadedLine u]) = 1 /\
      forall fuel,
        exec o (4 + fuel) analyzeYouTubeVideo [] =
        exec o fuel (inference (file u)) (uploadAttempt ++ [uploadedLine u])
  | inl e =>
      finishes o resolveRemoteFile [] (Rejected uploadAttempt e)
  end.
Proof.
  intros Hl Hno.
  assert (Hno' : forall g, In g (filesOrEmpty r) -> named g = false).
  { intros g Hg. apply String.eqb_neq. apply Hno; exact Hg. }
  split; [reflexivity|].
  fold uploadMetadata.
  destruct (uploadFile o "./videos/video.mp4" uploadMetadata) as [e|u] eqn:Hu.
  - apply (finishes_of_run o resolveRemoteFile [] (3 + 0) 0 _ (inl e)).
    apply (runS_resolve_upload_fails o r e 0 [] Hl Hno' Hu).
  - split; [|split; [reflexivity|]].
    + apply (finishes_of_run o resolveRemoteFile [] (4 + 0) 0 _ (inr (file u))).
      apply (runS_resolve_upload o r u 0 [] Hl Hno' Hu).
    + intros fuel. unfold exec at 1, analyzeYouTubeVideo.
      rewrite runS_bind, (runS_resolve_upload o r u fuel [] Hl Hno' Hu).
      reflexivity.
Qed.

Lemma resolve_uploads_when_absent_witness :
  listFiles (service None PROCESSING [PROCESSING]) =
    inr (Some {| files := None |}) /\
  (forall g, In g (filesOrEmpty (Some {| files := None |})) ->
             name g <> "files/ai-persuasion") /\
  finishes (service None PROCESSING [PROCESSING]) resolveRemoteFile []
    (Resolved
       (uploadAttempt ++ [uploadedLine {| file := withState activeFile PROCESSING |}])
       (withState activeFile PROCESSING)).
Proof.
  split; [reflexivity|split; [intros g []|]].
  apply (resolve_uploads_when_absent (service None PROCESSING [PROCESSING])
           (Some {| files := None |}) eq_refl).
  intros g [].
Defined.

(** ** The wait-for-ready step *)

Section PollingLoop.

Variable o : Oracle.
Variable videoFile : FileMetadataResponse.

(** One full turn of the loop on a file that is still PROCESSING. *)
Lemma runS_pollOnce (cur : FileMetadataResponse) (n : nat) (w : Trace) :
  state cur = PROCESSING ->
  runS o (3 + n) (pollOnce videoFile cur) w =
  (n, w ++ pollCalls (name videoFile),
   Some match getFile o (count isGetFile w) (name videoFile) with
        | inl e => inl e
        | inr f => inr (inl f)
        end).
Proof.
  intros Hc. unfold pollOnce. rewrite Hc. cbn [FileState_eqb plus].
  run_script. rewrite !count_app. cbn [count isGetFile filter length call projT2].
  rewrite !Nat.add_0_r, <- !app_assoc. cbn [app pollCalls].
  destruct (getFile o (count isGetFile w) (name videoFile)) as [e|f];
    run_script; reflexivity.
Qed.

Lemma runS_pollOnce_stop (cur : FileMetadataResponse) (n : nat) (w : Trace) :
  state cur <> PROCESSING ->
  runS o n (pollOnce videoFile cur) w = (n, w, Some (inr (inr cur))).
Proof.
  intros Hc. unfold pollOnce.
  destruct (state cur); try congruence; cbn [FileState_eqb]; apply runS_ret.
Qed.

(** With less than three units of fuel a turn does not complete. *)
Lemma runS_pollOnce_short (cur : FileMetadataResponse) (n : nat) (w : Trace) :
  state cur = PROCESSING -> n < 3 ->
  runS o n (pollOnce videoFile cur) w =
  (0, w ++ firstn n (pollCalls (name videoFile)), None).
Proof.
  intros Hc Hn. unfold pollOnce. rewrite Hc. cbn [FileState_eqb].
  destruct n as [|[|[|n]]]; [| | |lia]; cbn [firstn pollCalls].
  - rewrite runS_bind, runS_perform_0, app_nil_r. reflexivity.
  - run_script. rewrite runS_perform_0. reflexivity.
  - run_script. rewrite runS_await_0, <- app_assoc. reflexivity.
Qed.

(** The files fetched are [fs]; all files seen before the last one are
    PROCESSING and the last one is not: the loop makes [length fs] turns
    and returns the last file seen. *)
Lemma runS_loop_settles (fs : list FileMetadataResponse) :
  forall (cur : FileMetadataResponse) (w : Trace) (n : nat),
    (forall i g, nth_error fs i = Some g ->
                 getFile o (count isGetFile w + i) (name videoFile) = inr g) ->
    (forall g, In g (removelast (cur :: fs)) -> state g = PROCESSING) ->
    state (last fs cur) <> PROCESSING ->
    runS o (4 * length fs + n) (Basics.iter (pollOnce videoFile) cur) w =
    (n, w ++ polls (name videoFile) (length fs), Some (inr (last fs cur))).
Proof.
  induction fs as [|g fs IH]; intros cur w n Hget Hproc Hlast.
  - cbn [length last polls Nat.mul plus] in *.
    rewrite runS_iter, runS_pollOnce_stop, app_nil_r by assumption.
    reflexivity.
  - assert (Hc : state cur = PROCESSING).
    { apply Hproc. cbn. destruct fs; left; reflexivity. }
    replace (4 * length (g :: fs) + n) with (3 + S (4 * length fs + n))
      by (cbn [length]; lia).
    rewrite runS_iter, runS_pollOnce by assumption.
    rewrite <- (Nat.add_0_r (count isGetFile w)), (Hget 0 g eq_refl).
    rewrite IH.
    + rewrite <- app_assoc. rewrite last_cons. reflexivity.
    + intros i h Hi. rewrite count_app.
      change (count isGetFile (pollCalls (name videoFile))) with 1.
      replace (count isGetFile w + 1 + i) with (count isGetFile w + S i) by lia.
      apply Hget. exact Hi.
    + intros h Hh. apply Hproc.
      change (removelast (cur :: g :: fs)) with (cur :: removelast (g :: fs)).
      right. exact Hh.
    + rewrite <- (last_cons g cur fs). exact Hlast.
Qed.

(** Every fetch so far answered with a PROCESSING file: after [k] turns
    the loop is still running. *)
Lemma runS_loop_running (k : nat) :
  forall (cur : FileMetadataResponse) (w : Trace),
    state cur = PROCESSING ->
    (forall i, i < k ->
               exists g, getFile o (count isGetFile w + i) (name videoFile) = inr g
                         /\ state g = PROCESSING) ->
    runS o (4 * k) (Basics.iter (pollOnce videoFile) cur) w =
    (0, w ++ polls (name videoFile) k, None).
Proof.
  induction k as [|k IH]; intros cur w Hc Hget.
  - change (4 * 0) with 0. cbn [polls]. rewrite runS_iter, app_nil_r.
    unfold pollOnce. rewrite Hc. cbn [FileState_eqb].
    rewrite runS_bind, runS_perform_0. reflexivity.
  - replace (4 * S k) with (3 + S (4 * k)) by lia.
    rewrite runS_iter, runS_pollOnce by assumption.
    destruct (Hget 0) as [g [Hg Hs]]; [lia|].
    rewrite Nat.add_0_r in Hg. rewrite Hg, IH.
    + rewrite <- app_assoc. reflexivity.
    + exact Hs.
    + intros i Hi. rewrite count_app.
      change (count isGetFile (pollCalls (name videoFile))) with 1.
      replace (count isGetFile w + 1 + i) with (count isGetFile w + S i) by lia.
      apply Hget. lia.
Qed.

(** Whatever the service answers, a file the loop returns is the last one
    it has seen, and that file is not PROCESSING. *)
Lemma runS_loop_returns (n : nat) :
  forall (cur : FileMetadataResponse) (w : Trace) (n' : nat) (w' : Trace)
         (f : FileMetadataResponse),
    runS o n (Basics.iter (pollOnce videoFile) cur) w = (n', w', Some (inr f)) ->
    state f <> PROCESSING /\
    ((w' = w /\ f = cur) \/
     exists k, w' = w ++ polls (name videoFile) (S k) /\
               getFile o (count isGetFile w + k) (name videoFile) = inr f).
Proof.
  induction n as [n IH] using lt_wf_ind; intros cur w n' w' f.
  rewrite runS_iter.
  destruct (FileState_eqb (state cur) PROCESSING) eqn:Hc.
  - assert (Hc' : state cur = PROCESSING) by (destruct (state cur); now inversion Hc).
    destruct (Nat.lt_ge_cases n 3) as [Hn|Hn].
    + rewrite (runS_pollOnce_short cur n w Hc' Hn). discriminate.
    + replace n with (3 + (n - 3)) by lia. rewrite runS_pollOnce by assumption.
      destruct (getFile o (count isGetFile w) (name videoFile)) as [e|g] eqn:Hg;
        [discriminate|].
      destruct (n - 3) as [|m] eqn:Hm; [discriminate|].
      intros H. apply IH in H; [|lia].
      destruct H as [Hf [[-> ->]|[k [-> Hk]]]]; split; try exact Hf; right.
      * exists 0. cbn [polls]. rewrite app_nil_r, Nat.add_0_r. auto.
      * exists (S k). split.
        -- rewrite <- app_assoc. reflexivity.
        -- rewrite count_app in Hk.
           change (count isGetFile (pollCalls (name videoFile))) with 1 in Hk.
           replace (count isGetFile w + S k) with (count isGetFile w + 1 + k) by lia.
           exact Hk.
  - assert (Hc' : state cur <> PROCESSING) by (intros E; rewrite E in Hc; discriminate).
    rewrite runS_pollOnce_stop by assumption.
    intros H; injection H as <- <- <-. auto.
Qed.

(** Whatever the service answers and however long the loop runs, its calls
    are turns of a dot, the 5000 ms timer and one fetch, in this order. *)
Lemma runS_loop_shape (n : nat) :
  forall (cur : FileMetadataResponse) (w : Trace),
    exists k m,
      snd (fst (runS o n (Basics.iter (pollOnce videoFile) cur) w)) =
      w ++ firstn m (polls (name videoFile) k).
Proof.
  induction n as [n IH] using lt_wf_ind; intros cur w.
  rewrite runS_iter.
  destruct (FileState_eqb (state cur) PROCESSING) eqn:Hc.
  - assert (Hc' : state cur = PROCESSING) by (destruct (state cur); now inversion Hc).
    destruct (Nat.lt_ge_cases n 3) as [Hn|Hn].
    + rewrite (runS_pollOnce_short cur n w Hc' Hn).
      exists 1, n. cbn [polls fst snd]. rewrite app_nil_r. reflexivity.
    + replace n with (3 + (n - 3)) by lia. rewrite runS_pollOnce by assumption.
      destruct (getFile o (count isGetFile w) (name videoFile)) as [e|g];
        [exists 1, 3; reflexivity|].
      destruct (n - 3) as [|m] eqn:Hm; [exists 1, 3; reflexivity|].
      destruct (IH m ltac:(lia) g (w ++ pollCalls (name videoFile))) as [k [j E]].
      exists (S k), (3 + j). rewrite E, <- app_assoc. reflexivity.
  - assert (Hc' : state cur <> PROCESSING) by (intros E; rewrite E in Hc; discriminate).
    rewrite runS_pollOnce_stop by assumption.
    exists 0, 0. cbn [polls firstn fst snd]. rewrite app_nil_r. reflexivity.
Qed.

End PollingLoop.

Section AwaitReady.

Variable o : Oracle.
Variable videoFile : FileMetadataResponse.

Lemma runS_awaitReady (fs : list FileMetadataResponse) (w : Trace) (n : nat) :
  (forall i g, nth_error fs i = Some g ->
               getFile o (count isGetFile w + i) (name videoFile) = inr g) ->
  (forall g, In g (removelast (videoFile :: fs)) -> state g = PROCESSING) ->
  state (last fs videoFile) <> PROCESSING ->
  runS o (4 * length fs + n) (awaitReady videoFile) w =
  (n, w ++ polls (name videoFile) (length fs),
   Some (if FileState_eqb (state (last fs videoFile)) FAILED
         then inl (Error "Video processing failed.")
         else inr (last fs videoFile))).
Proof.
  intros Hget Hproc Hlast. unfold awaitReady.
  rewrite runS_bind, (runS_loop_settles o videoFile fs videoFile w n Hget Hproc Hlast).
  destruct (FileState_eqb (state (last fs videoFile)) FAILED).
  - apply runS_raise.
  - apply runS_ret.
Qed.

Lemma exec_awaitReady_returns (fuel : nat) (w w' : Trace)
    (f : FileMetadataResponse) :
  exec o fuel (awaitReady videoFile) w = Resolved w' f ->
  state f <> PROCESSING /\ state f <> FAILED /\
  ((w' = w /\ f = videoFile) \/
   exists k, w' = w ++ polls (name videoFile) (S k) /\
             getFile o (count isGetFile w + k) (name videoFile) = inr f).
Proof.
  unfold exec, awaitReady. rewrite runS_bind.
  destruct (runS o fuel (Basics.iter (pollOnce videoFile) videoFile) w)
    as [[n' w''] [[e|g]|]] eqn:E; try discriminate.
  destruct (FileState_eqb (state g) FAILED) eqn:Hg.
  - rewrite runS_raise. discriminate.
  - rewrite runS_ret. intros H; injection H as <- <-.
    destruct (runS_loop_returns o videoFile fuel videoFile w n' w'' g E)
      as [Hp Hw].
    split; [exact Hp|split; [|exact Hw]].
    intros Hf. rewrite Hf in Hg. discriminate.
Qed.

Lemma exec_awaitReady_shape (fuel : nat) (w : Trace) :
  exists k m,
    traceOf (exec o fuel (awaitReady videoFile) w) =
    w ++ firstn m (polls (name videoFile) k).
Proof.
  destruct (runS_loop_shape o videoFile fuel videoFile w) as [k [m E]].
  exists k, m. rewrite exec_trace. unfold awaitReady. rewrite runS_bind.
  destruct (runS o fuel (Basics.iter (pollOnce videoFile) videoFile) w)
    as [[n' w'] [[e|g]|]]; cbn [fst snd] in *; try exact E.
  destruct (FileState_eqb (state g) FAILED);
    [rewrite runS_raise|rewrite runS_ret]; exact E.
Qed.

End AwaitReady.

(** C3.  For every service, every starting trace and every number of
    steps: the calls of the wait-for-ready step are turns of a dot, the
    5000 ms timer and one fetch of the file, in this order; a file the
    step returns is the one seen last and is neither PROCESSING nor
    FAILED; a file that is ACTIVE on entry is returned at once, with no
    call at all.  Moreover, when the fetches answer with the files [fs],
    every file seen before the last being PROCESSING and the last one
    not, the step makes exactly [length fs] turns and ends with the last
    file seen. *)
Theorem awaitReady_polls_until_ready (o : Oracle) (videoFile : FileMetadataResponse)
    (w : Trace) :
  (forall fuel, exists k m,
      traceOf (exec o fuel (awaitReady videoFile) w) =
      w ++ firstn m (polls (name videoFile) k)) /\
  (forall fuel w' f,
      exec o fuel (awaitReady videoFile) w = Resolved w' f ->
      state f <> PROCESSING /\ state f <> FAILED /\
      ((w' = w /\ f = videoFile) \/
       exists k, w' = w ++ polls (name videoFile) (S k) /\
                 getFile o (count isGetFile w + k) (name videoFile) = inr f)) /\
  (state videoFile = ACTIVE ->
   forall fuel, exec o fuel (awaitReady videoFile) w = Resolved w videoFile) /\
  (forall fs : list FileMetadataResponse,
     (forall i g, nth_error fs i = Some g ->
                  getFile o (count isGetFile w + i) (name videoFile) = inr g) ->
     (forall g, In g (removelast (videoFile :: fs)) -> state g = PROCESSING) ->
     state (last fs videoFile) <> PROCESSING ->
     finishes o (awaitReady videoFile) w
       (if FileState_eqb (state (last fs videoFile)) FAILED
        then Rejected (w ++ polls (name videoFile) (length fs))
                      (Error "Video processing failed.")
        else Resolved (w ++ polls (name videoFile) (length fs))
                      (last fs videoFile)) /\
     count isGetFile (w ++ polls (name videoFile) (length fs)) =
       count isGetFile w + length fs).
Proof.
  split; [|split; [|split]].
  - intros fuel. apply exec_awaitReady_shape.
  - intros fuel w' f E.
    exact (exec_awaitReady_returns o videoFile fuel w w' f E).
  - intros Ha fuel. unfold exec, awaitReady.
    rewrite runS_bind, runS_iter, runS_pollOnce_stop by (rewrite Ha; discriminate).
    rewrite Ha. cbn [FileState_eqb]. rewrite runS_ret. reflexivity.
  - intros fs Hget Hproc Hlast. split.
    + pose proof (runS_awaitReady o videoFile fs w 0 Hget Hproc Hlast) as E.
      apply finishes_of_run in E.
      destruct (FileState_eqb (state (last fs videoFile)) FAILED); exact E.
    + rewrite count_app, count_polls_GetFile. reflexivity.
Qed.

Lemma awaitReady_polls_until_ready_witness :
  (forall i g,
      nth_error [withState activeFile PROCESSING; withState activeFile ACTIVE] i
        = Some g ->
      getFile (service None PROCESSING [PROCESSING]) (count isGetFile [] + i)
        (name (withState activeFile PROCESSING)) = inr g) /\
  (forall g,
      In g (removelast
              [withState activeFile PROCESSING;
               withState activeFile PROCESSING; withState activeFile ACTIVE]) ->
      state g = PROCESSING) /\
  finishes (service None PROCESSING [PROCESSING])
    (awaitReady (withState activeFile PROCESSING)) []
    (Resolved
       [call (StdoutWrite "."); call (SetTimeout 5000);
        call (GetFile "files/ai-persuasion");
        call (StdoutWrite "."); call (SetTimeout 5000);
        call (GetFile "files/ai-persuasion")]
       (withState activeFile ACTIVE)) /\
  exec (service None PROCESSING [PROCESSING]) 8
    (awaitReady (withState activeFile PROCESSING)) [] =
    Resolved (polls "files/ai-persuasion" 2) (withState activeFile ACTIVE) /\
  state (withState activeFile ACTIVE) <> PROCESSING /\
  state activeFile = ACTIVE /\
  exec fetchFails 0 (awaitReady activeFile) [] = Resolved [] activeFile.
Proof.
  assert (Hget : forall i g,
      nth_error [withState activeFile PROCESSING; withState activeFile ACTIVE] i
        = Some g ->
      getFile (service None PROCESSING [PROCESSING]) (count isGetFile [] + i)
        (name (withState activeFile PROCESSING)) = inr g).
  { intros [|[|[|i]]] g H; cbn in H; try discriminate;
      injection H as <-; reflexivity. }
  assert (Hproc : forall g,
      In g (removelast
              [withState activeFile PROCESSING;
               withState activeFile PROCESSING; withState activeFile ACTIVE]) ->
      state g = PROCESSING).
  { intros g [<-|[<-|[]]]; reflexivity. }
  assert (Hrun :
    exec (service None PROCESSING [PROCESSING]) 8
      (awaitReady (withState activeFile PROCESSING)) [] =
      Resolved (polls "files/ai-persuasion" 2) (withState activeFile ACTIVE))
    by reflexivity.
  destruct (awaitReady_polls_until_ready (service None PROCESSING [PROCESSING])
              (withState activeFile PROCESSING) [])
    as [_ [Hret [_ Hfs]]].
  split; [exact Hget|split; [exact Hproc|split; [|split; [exact Hrun|split]]]].
  - apply (Hfs [withState activeFile PROCESSING; withState activeFile ACTIVE]
             Hget Hproc).
    cbn. discriminate.
  - exact (proj1 (Hret 8 _ _ Hrun)).
  - split; [reflexivity|].
    exact (proj1 (proj2 (proj2 (awaitReady_polls_until_ready fetchFails
                                  activeFile []))) eq_refl 0).
Defined.

(** C9.  When the file is PROCESSING on entry and every fetch answers with a
    PROCESSING file, the wait-for-ready step never ends: after [4 * k]
    steps it has made [k] fetches and is still running, for every [k].  A
    run of the whole function that reaches the step with such a file never
    ends either. *)
Theorem awaitReady_never_ends (o : Oracle) (videoFile : FileMetadataResponse)
    (w : Trace) :
  state videoFile = PROCESSING ->
  (forall i, exists g, getFile o i (name videoFile) = inr g
                       /\ state g = PROCESSING) ->
  diverges o (awaitReady videoFile) w /\
  (forall k,
     exec o (4 * k) (awaitReady videoFile) w =
       Pending (w ++ polls (name videoFile) k) /\
     count isGetFile (w ++ polls (name videoFile) k) = count isGetFile w + k) /\
  (finishes o resolveRemoteFile [] (Resolved w videoFile) ->
   diverges o analyzeYouTubeVideo []).
Proof.
  intros Hv Hget.
  assert (Hk : forall k,
    exec o (4 * k) (awaitReady videoFile) w =
      Pending (w ++ polls (name videoFile) k)).
  { intros k. unfold exec, awaitReady.
    rewrite runS_bind, (runS_loop_running o videoFile k videoFile w Hv).
    - reflexivity.
    - intros i _. apply Hget. }
  assert (Hd : diverges o (awaitReady videoFile) w).
  { intros fuel. apply pending_before with (m := 3 * fuel).
    replace (fuel + 3 * fuel) with (4 * fuel) by lia.
    rewrite Hk. reflexivity. }
  split; [exact Hd|split].
  - intros k. split; [apply Hk|].
    rewrite count_app, count_polls_GetFile. reflexivity.
  - intros Hres. unfold analyzeYouTubeVideo.
    apply (diverges_after o _ _ _ _ _ Hres).
    unfold inference. apply diverges_bind. exact Hd.
Qed.

Lemma awaitReady_never_ends_witness :
  state (withState activeFile PROCESSING) = PROCESSING /\
  (forall i, exists g,
      getFile stuckService i (name (withState activeFile PROCESSING)) = inr g
      /\ state g = PROCESSING) /\
  diverges stuckService (awaitReady (withState activeFile PROCESSING)) [] /\
  exec stuckService 8 (awaitReady (withState activeFile PROCESSING)) [] =
    Pending [call (StdoutWrite "."); call (SetTimeout 5000);
             call (GetFile "files/ai-persuasion");
             call (StdoutWrite "."); call (SetTimeout 5000);
             call (GetFile "files/ai-persuasion")].
Proof.
  assert (Hget : forall i, exists g,
      getFile stuckService i (name (withState activeFile PROCESSING)) = inr g
      /\ state g = PROCESSING).
  { intros i. exists (withState activeFile PROCESSING). split; reflexivity. }
  split; [reflexivity|split; [exact Hget|]].
  destruct (awaitReady_never_ends stuckService (withState activeFile PROCESSING)
              [] eq_refl Hget) as [Hd [Hk _]].
  split; [exact Hd|]. exact (proj1 (Hk 2)).
Defined.

(** ** The generate step *)

Section Generate.

Variable o : Oracle.
Variable videoFile : FileMetadataResponse.

Lemma runS_generate_count_fails (error : JsError) (n : nat) (w : Trace) :
  countTokens o (request videoFile) = inl error ->
  runS o (2 + n) (generate videoFile) w =
  (n, w ++ [call (CountTokens (request videoFile)); errorLine error],
   Some (inr tt)).
Proof.
  intros Hc. unfold generate, generateBody. cbn [plus]. run_script.
  rewrite Hc. run_script. rewrite <- app_assoc. reflexivity.
Qed.

Lemma runS_generate_content_fails (c : CountTokensResponse) (error : JsError)
    (n : nat) (w : Trace) :
  countTokens o (request videoFile) = inr c ->
  generateContent o (request videoFile) = inl error ->
  runS o (4 + n) (generate videoFile) w =
  (n, w ++ [call (CountTokens (request videoFile)); tokenCountLine c;
            call (GenerateContent (request videoFile)); errorLine error],
   Some (inr tt)).
Proof.
  intros Hc Hg. unfold generate, generateBody. cbn [plus]. run_script.
  rewrite Hc. run_script. rewrite Hg. run_script.
  rewrite <- !app_assoc. reflexivity.
Qed.

Lemma runS_generate_calls (c : CountTokensResponse) (res : GenerateContentResult)
    (n : nat) (w : Trace) :
  countTokens o (request videoFile) = inr c ->
  generateContent o (request videoFile) = inr res ->
  runS o (4 + n) (generate videoFile) w =
  (n, w ++ [call (CountTokens (request videoFile)); tokenCountLine c;
            call (GenerateContent (request videoFile));
            match functionCalls (response res) with
            | inl error => errorLine error
            | inr None => call (ConsoleLog [LogString "No functions called"])
            | inr (Some calls) => call (ConsoleLog [LogJson calls])
            end],
   Some (inr tt)).
Proof.
  intros Hc Hg. unfold generate, generateBody. cbn [plus]. run_script.
  rewrite Hc. run_script. rewrite Hg. run_script.
  destruct (functionCalls (response res)) as [error|[calls|]]; run_script;
    rewrite <- !app_assoc; reflexivity.
Qed.

End Generate.

(** C7.  When the token count and the generation call succeed and the
    response holds no function call ([functionCalls()] yields [undefined]),
    the generate step prints "No functions called" and returns normally,
    with no value and without throwing. *)
Theorem no_function_call_is_reported (o : Oracle)
    (videoFile : FileMetadataResponse) (w : Trace)
    (c : CountTokensResponse) (res : GenerateContentResult) :
  countTokens o (request videoFile) = inr c ->
  generateContent o (request videoFile) = inr res ->
  functionCalls (response res) = inr None ->
  finishes o (generate videoFile) w
    (Resolved
       (w ++ [call (CountTokens (request videoFile));
              tokenCountLine c;
              call (GenerateContent (request videoFile));
              call (ConsoleLog [LogString "No functions called"])])
       tt).
Proof.
  intros Hc Hg Hf.
  pose proof (runS_generate_calls o videoFile c res 0 w Hc Hg) as E.
  rewrite Hf in E. apply finishes_of_run in E. exact E.
Qed.

Lemma no_function_call_is_reported_witness :
  countTokens (service (Some [activeFile]) ACTIVE []) (request activeFile) =
    inr {| totalTokens := 1000 |} /\
  generateContent (service (Some [activeFile]) ACTIVE []) (request activeFile) =
    inr {| response := {| functionCalls := inr None |} |} /\
  functionCalls (response {| response := {| functionCalls := inr None |} |}) =
    inr None /\
  finishes (service (Some [activeFile]) ACTIVE []) (generate activeFile) []
    (Resolved
       [call (CountTokens (request activeFile));
        tokenCountLine {| totalTokens := 1000 |};
        call (GenerateContent (request activeFile));
        call (ConsoleLog [LogString "No functions called"])]
       tt).
Proof.
  split; [reflexivity|split; [reflexivity|split; [reflexivity|]]].
  exact (no_function_call_is_reported (service (Some [activeFile]) ACTIVE [])
           activeFile [] {| totalTokens := 1000 |}
           {| response := {| functionCalls := inr None |} |}
           eq_refl eq_refl eq_refl).
Defined.

(** ** The whole function *)

Section WholeRun.

Variable o : Oracle.

(** The resolve step calls neither [getFile] nor the model. *)
Lemma resolve_calls (out : Outcome FileMetadataResponse) :
  finishes o resolveRemoteFile [] out ->
  count isGetFile (traceOf out) = 0 /\
  count isCountTokens (traceOf out) = 0 /\
  count isGenerateContent (traceOf out) = 0.
Proof.
  intros Hout.
  destruct (listFiles o) as [e|r] eqn:Hl.
  - pose proof (runS_resolve_list_fails o e 0 [] Hl) as E.
    apply finishes_of_run in E.
    rewrite (finishes_unique o _ _ _ _ Hout E). repeat split.
  - destruct (existsb named (filesOrEmpty r)) eqn:Ex.
    + apply existsb_exists in Ex. destruct Ex as [e [Hin He]].
      destruct (split_last_named _ _ Hin He) as [l1 [f [l2 [Hs [Hf Hl2]]]]].
      pose proof (runS_resolve_reuse o r l1 l2 f 0 [] Hl Hs Hf Hl2) as E.
      apply finishes_of_run in E.
      rewrite (finishes_unique o _ _ _ _ Hout E). cbn [traceOf app].
      change (call ListFiles :: ?l) with ([call ListFiles] ++ l).
      rewrite !count_app, !count_usingExisting by reflexivity.
      repeat split.
    + assert (Hno : forall g, In g (filesOrEmpty r) -> named g = false).
      { intros g Hg. destruct (named g) eqn:Hn; [|reflexivity].
        assert (existsb named (filesOrEmpty r) = true)
          by (apply existsb_exists; eauto).
        congruence. }
      destruct (uploadFile o "./videos/video.mp4" uploadMetadata) as [e|u] eqn:Hu.
      * pose proof (runS_resolve_upload_fails o r e 0 [] Hl Hno Hu) as E.
        apply finishes_of_run in E.
        rewrite (finishes_unique o _ _ _ _ Hout E). repeat split.
      * pose proof (runS_resolve_upload o r u 0 [] Hl Hno Hu) as E.
        apply finishes_of_run in E.
        rewrite (finishes_unique o _ _ _ _ Hout E). repeat split.
Qed.

Lemma finishes_analyze (w1 : Trace) (videoFile : FileMetadataResponse)
    (out : Outcome unit) :
  finishes o resolveRemoteFile [] (Resolved w1 videoFile) ->
  finishes o (inference videoFile) w1 out ->
  finishes o analyzeYouTubeVideo [] out.
Proof.
  intros H1 H2. unfold analyzeYouTubeVideo.
  exact (finishes_bind o _ _ _ _ _ _ H1 H2).
Qed.

Lemma finishes_inference (videoFile file : FileMetadataResponse)
    (w1 w2 : Trace) (out : Outcome unit) :
  finishes o (awaitReady videoFile) w1 (Resolved w2 file) ->
  finishes o (generate videoFile) (w2 ++ [readyLine file]) out ->
  finishes o (inference videoFile) w1 out.
Proof.
  intros H1 H2. unfold inference.
  apply (finishes_bind o _ _ _ _ _ _ H1).
  refine (finishes_bind o _ _ _ (w2 ++ [readyLine file]) tt _ _ H2).
  apply (finishes_of_run o _ w2 1 0 _ (inr tt)).
  apply runS_perform.
Qed.

Lemma finishes_inference_rejected (videoFile : FileMetadataResponse)
    (w1 w2 : Trace) (e : JsError) :
  finishes o (awaitReady videoFile) w1 (Rejected w2 e) ->
  finishes o (inference videoFile) w1 (Rejected w2 e).
Proof.
  intros H1. unfold inference. apply finishes_bind_rejected. exact H1.
Qed.

(** The first three steps of [inference] on a PROCESSING file are a poll. *)
Lemma runS_inference_polls (videoFile : FileMetadataResponse) (w : Trace) :
  state videoFile = PROCESSING ->
  snd (fst (runS o 3 (inference videoFile) w)) = w ++ pollCalls (name videoFile).
Proof.
  intros Hv. unfold inference, awaitReady.
  change 3 with (3 + 0).
  rewrite !runS_bind, runS_iter, (runS_pollOnce o videoFile videoFile 0 w Hv).
  destruct (getFile o (count isGetFile w) (name videoFile)); reflexivity.
Qed.

(** On a file that is neither PROCESSING nor FAILED its first two steps
    are the console line and the token count. *)
Lemma runS_inference_ready (videoFile : FileMetadataResponse) (w : Trace) :
  state videoFile <> PROCESSING ->
  state videoFile <> FAILED ->
  snd (fst (runS o 2 (inference videoFile) w)) =
  w ++ [readyLine videoFile; call (CountTokens (request videoFile))].
Proof.
  intros Hp Hf. unfold inference, awaitReady.
  rewrite !runS_bind, runS_iter, (runS_pollOnce_stop o videoFile videoFile 2 w Hp).
  assert (E : FileState_eqb (state videoFile) FAILED = false)
    by (destruct (state videoFile); try reflexivity; congruence).
  rewrite E. run_script. unfold generate, generateBody. run_script.
  rewrite <- app_assoc.
  destruct (countTokens o (request videoFile)); run_script;
    rewrite runS_perform_0; reflexivity.
Qed.

(** Once the resolve step has returned, the run goes on with [inference]. *)
Lemma analyze_trace_after_resolve (w1 : Trace) (videoFile : FileMetadataResponse)
    (k : nat) :
  finishes o resolveRemoteFile [] (Resolved w1 videoFile) ->
  exists c, forall fuel, c <= fuel ->
    exists rest,
      traceOf (exec o fuel analyzeYouTubeVideo []) =
      snd (fst (runS o k (inference videoFile) w1)) ++ rest.
Proof.
  intros Hres.
  destruct (finishes_runS o _ _ _ Hres) as [n [n' [r [Hr Er]]]].
  destruct r as [e|v]; [discriminate|]. injection Er as <-.
  cbn [traceOf] in Hr.
  exists (n + k). intros fuel Hfuel.
  rewrite exec_trace. unfold analyzeYouTubeVideo.
  replace fuel with (n + (fuel - n)) by lia.
  rewrite runS_bind, Hr.
  replace (n' + (fuel - n)) with (k + (n' + (fuel - n) - k)) by lia.
  apply run_trace_more.
Qed.

End WholeRun.

(** C4.  Let the resolve step return [videoFile], and let [fs] be the files
    the fetches answer with, every file seen before the last being
    PROCESSING and the last one FAILED.  Then the run rejects with
    "Video processing failed." right after fetch number [length fs]: the
    trace holds exactly [length fs] fetches and no call to the model. *)
Theorem failed_file_stops_the_run (o : Oracle) (videoFile : FileMetadataResponse)
    (w1 : Trace) (fs : list FileMetadataResponse) :
  finishes o resolveRemoteFile [] (Resolved w1 videoFile) ->
  (forall i g, nth_error fs i = Some g ->
               getFile o i (name videoFile) = inr g) ->
  (forall g, In g (removelast (videoFile :: fs)) -> state g = PROCESSING) ->
  state (last fs videoFile) = FAILED ->
  finishes o analyzeYouTubeVideo []
    (Rejected (w1 ++ polls (name videoFile) (length fs))
              (Error "Video processing failed.")) /\
  count isGetFile (w1 ++ polls (name videoFile) (length fs)) = length fs /\
  count isCountTokens (w1 ++ polls (name videoFile) (length fs)) = 0 /\
  count isGenerateContent (w1 ++ polls (name videoFile) (length fs)) = 0.
Proof.
  intros Hres Hget Hproc Hlast.
  destruct (resolve_calls o _ Hres) as [Hg [Hc Hgen]]. cbn [traceOf] in *.
  split; [|split; [|split]].
  - apply (finishes_analyze o w1 videoFile _ Hres).
    apply finishes_inference_rejected.
    assert (Hget' : forall i g, nth_error fs i = Some g ->
              getFile o (count isGetFile w1 + i) (name videoFile) = inr g)
      by (intros i g Hi; rewrite Hg; apply Hget; exact Hi).
    assert (Hlast' : state (last fs videoFile) <> PROCESSING)
      by (rewrite Hlast; discriminate).
    pose proof (runS_awaitReady o videoFile fs w1 0 Hget' Hproc Hlast') as E.
    rewrite Hlast in E. cbn [FileState_eqb] in E.
    apply finishes_of_run in E. exact E.
  - rewrite count_app, count_polls_GetFile, Hg. reflexivity.
  - rewrite count_app, count_polls_other, Hc; reflexivity.
  - rewrite count_app, count_polls_other, Hgen; reflexivity.
Qed.

(** The third scenario of the spec: the uploaded file is PROCESSING, the
    fetches report PROCESSING, then FAILED. *)
Lemma failed_file_stops_the_run_witness :
  finishes (service None PROCESSING [PROCESSING; FAILED]) resolveRemoteFile []
    (Resolved
       (uploadAttempt ++ [uploadedLine {| file := withState activeFile PROCESSING |}])
       (withState activeFile PROCESSING)) /\
  finishes (service None PROCESSING [PROCESSING; FAILED]) analyzeYouTubeVideo []
    (Rejected
       ((uploadAttempt ++ [uploadedLine {| file := withState activeFile PROCESSING |}])
        ++ [call (StdoutWrite "."); call (SetTimeout 5000);
            call (GetFile "files/ai-persuasion");
            call (StdoutWrite "."); call (SetTimeout 5000);
            call (GetFile "files/ai-persuasion")])
       (Error "Video processing failed.")) /\
  count isGetFile
    ((uploadAttempt ++ [uploadedLine {| file := withState activeFile PROCESSING |}])
     ++ polls "files/ai-persuasion" 2) = 2.
Proof.
  assert (Hres :
    finishes (service None PROCESSING [PROCESSING; FAILED]) resolveRemoteFile []
      (Resolved
         (uploadAttempt ++ [uploadedLine {| file := withState activeFile PROCESSING |}])
         (withState activeFile PROCESSING))).
  { apply (finishes_intro _ 4); reflexivity. }
  split; [exact Hres|].
  destruct (failed_file_stops_the_run
              (service None PROCESSING [PROCESSING; FAILED])
              (withState activeFile PROCESSING) _
              [withState activeFile PROCESSING; withState activeFile FAILED]
              Hres) as [Hrun [Hfetches _]].
  - intros [|[|[|i]]] g H; cbn in H; try discriminate;
      injection H as <-; reflexivity.
  - intros g [<-|[<-|[]]]; reflexivity.
  - reflexivity.
  - split; [exact Hrun|exact Hfetches].
Defined.

(** C5, as stated, fails: a listed file named "files/ai-persuasion" whose
    state is PROCESSING is reused (no upload) and then polled; when the
    fetch reports FAILED the run rejects and the model is never called. *)
Lemma reuse_does_not_skip_the_wait :
  listFiles (service (Some [freshCopy]) ACTIVE [FAILED]) =
    inr (Some {| files := Some [freshCopy] |}) /\
  name freshCopy = "files/ai-persuasion" /\
  state freshCopy = PROCESSING /\
  exec (service (Some [freshCopy]) ACTIVE [FAILED]) 6 analyzeYouTubeVideo [] =
    Rejected
      [call ListFiles;
       call (ConsoleLog [LogString "using existing file"; LogFile freshCopy]);
       call (StdoutWrite ".");
       call (SetTimeout 5000);
       call (GetFile "files/ai-persuasion")]
      (Error "Video processing failed.").
Proof. repeat split. Qed.

(** C5, amended.  A listed file named "files/ai-persuasion" is reused
    without an upload and then goes through the same wait-for-ready step as
    an uploaded file: listed as PROCESSING it is polled, listed as FAILED
    it makes the run reject before any call to the model, and only in any
    other state does the run go on to the token count without a fetch. *)
Theorem reused_file_goes_through_the_wait (o : Oracle)
    (r : option ListFilesResponse) (e : FileMetadataResponse) :
  listFiles o = inr r ->
  In e (filesOrEmpty r) ->
  name e = "files/ai-persuasion" ->
  exists (videoFile : FileMetadataResponse) (w1 : Trace),
    finishes o resolveRemoteFile [] (Resolved w1 videoFile) /\
    In videoFile (filesOrEmpty r) /\
    name videoFile = "files/ai-persuasion" /\
    count isUploadFile w1 = 0 /\
    (state videoFile = PROCESSING ->
     exists c, forall fuel, c <= fuel ->
       exists rest,
         traceOf (exec o fuel analyzeYouTubeVideo []) =
         (w1 ++ pollCalls (name videoFile)) ++ rest) /\
    (state videoFile = FAILED ->
     finishes o analyzeYouTubeVideo []
       (Rejected w1 (Error "Video processing failed."))) /\
    (state videoFile <> PROCESSING -> state videoFile <> FAILED ->
     exists c, forall fuel, c <= fuel ->
       exists rest,
         traceOf (exec o fuel analyzeYouTubeVideo []) =
         (w1 ++ [readyLine videoFile; call (CountTokens (request videoFile))])
         ++ rest).
Proof.
  intros Hl Hin Hname.
  assert (He : named e = true) by (apply String.eqb_eq; exact Hname).
  destruct (split_last_named _ _ Hin He) as [l1 [f [l2 [Hs [Hf Hl2]]]]].
  pose proof (runS_resolve_reuse o r l1 l2 f 0 [] Hl Hs Hf Hl2) as Hres.
  apply finishes_of_run in Hres. cbn [app] in Hres.
  exists f, (call ListFiles :: usingExisting (filesOrEmpty r)).
  split; [exact Hres|split; [|split; [|split; [|split; [|split]]]]].
  - rewrite Hs; apply in_elt.
  - apply String.eqb_eq; exact Hf.
  - change (call ListFiles :: ?l) with ([call ListFiles] ++ l).
    rewrite count_app, count_usingExisting by reflexivity. reflexivity.
  - intros Hp.
    destruct (analyze_trace_after_resolve o _ f 3 Hres) as [c Hc].
    exists c. intros fuel Hfuel. destruct (Hc fuel Hfuel) as [rest E].
    exists rest. rewrite E, runS_inference_polls by exact Hp. reflexivity.
  - intros Hfail. apply (finishes_analyze o _ f _ Hres).
    apply finishes_inference_rejected.
    pose proof (runS_awaitReady o f [] (call ListFiles :: usingExisting (filesOrEmpty r)) 0)
      as E.
    cbn [length last polls removelast Nat.mul plus] in E.
    rewrite Hfail, app_nil_r in E. cbn [FileState_eqb] in E.
    apply (finishes_of_run o _ _ 0 0 _ (inl (Error "Video processing failed."))).
    apply E.
    + intros [|i] g H; discriminate.
    + intros g [].
    + discriminate.
  - intros Hp Hfail.
    destruct (analyze_trace_after_resolve o _ f 2 Hres) as [c Hc].
    exists c. intros fuel Hfuel. destruct (Hc fuel Hfuel) as [rest E].
    exists rest. rewrite E, runS_inference_ready by assumption. reflexivity.
Qed.

Lemma reused_file_goes_through_the_wait_witness :
  listFiles (service (Some [freshCopy]) ACTIVE [FAILED]) =
    inr (Some {| files := Some [freshCopy] |}) /\
  In freshCopy (filesOrEmpty (Some {| files := Some [freshCopy] |})) /\
  name freshCopy = "files/ai-persuasion" /\
  exists (videoFile : FileMetadataResponse) (w1 : Trace),
    finishes (service (Some [freshCopy]) ACTIVE [FAILED]) resolveRemoteFile []
      (Resolved w1 videoFile) /\
    In videoFile (filesOrEmpty (Some {| files := Some [freshCopy] |})) /\
    count isUploadFile w1 = 0 /\
    (state videoFile = PROCESSING ->
     exists c, forall fuel, c <= fuel ->
       exists rest,
         traceOf (exec (service (Some [freshCopy]) ACTIVE [FAILED]) fuel
                    analyzeYouTubeVideo []) =
         (w1 ++ pollCalls (name videoFile)) ++ rest).
Proof.
  split; [reflexivity|split; [left; reflexivity|split; [reflexivity|]]].
  destruct (reused_file_goes_through_the_wait
              (service (Some [freshCopy]) ACTIVE [FAILED])
              (Some {| files := Some [freshCopy] |}) freshCopy
              eq_refl (or_introl eq_refl) eq_refl)
    as [videoFile [w1 [Hres [Hin [_ [Hup [Hpoll _]]]]]]].
  exists videoFile, w1.
  split; [exact Hres|split; [exact Hin|split; [exact Hup|exact Hpoll]]].
Defined.

(** C6.  Let the resolve step return [videoFile] and the wait-for-ready
    step return [file].  The request built for the model has one user turn
    whose file-data part carries the MIME type and the URI of [videoFile],
    unchanged; the run sends this request to [countTokens] first and, when
    the count succeeds, to [generateContent] next. *)
Theorem generate_embeds_resolved_file (o : Oracle)
    (videoFile file : FileMetadataResponse) (w1 w2 : Trace) :
  finishes o resolveRemoteFile [] (Resolved w1 videoFile) ->
  finishes o (awaitReady videoFile) w1 (Resolved w2 file) ->
  contents (request videoFile) =
    [{| role := "user";
        parts := [
          FileDataPart (mimeType videoFile) (uri videoFile);
          TextPart "Make a YouTube title, description, chapters, tags, and a 1000 word blog post in markdown format best for this video including images from the video."
        ] |}] /\
  match countTokens o (request videoFile) with
  | inr c =>
      exists report,
        finishes o analyzeYouTubeVideo []
          (Resolved
             (w2 ++ [readyLine file;
                     call (CountTokens (request videoFile));
                     tokenCountLine c;
                     call (GenerateContent (request videoFile));
                     report])
             tt)
  | inl e =>
      finishes o analyzeYouTubeVideo []
        (Resolved
           (w2 ++ [readyLine file;
                   call (CountTokens (request videoFile));
                   errorLine e])
           tt)
  end.
Proof.
  intros Hres Hwait. split; [reflexivity|].
  destruct (countTokens o (request videoFile)) as [e|c] eqn:Hc.
  - apply (finishes_analyze o w1 videoFile _ Hres).
    apply (finishes_inference o videoFile file w1 w2 _ Hwait).
    pose proof (runS_generate_count_fails o videoFile e 0 (w2 ++ [readyLine file]) Hc)
      as E.
    apply finishes_of_run in E. rewrite <- app_assoc in E. exact E.
  - destruct (generateContent o (request videoFile)) as [e|res] eqn:Hg.
    + exists (errorLine e).
      apply (finishes_analyze o w1 videoFile _ Hres).
      apply (finishes_inference o videoFile file w1 w2 _ Hwait).
      pose proof (runS_generate_content_fails o videoFile c e 0
                    (w2 ++ [readyLine file]) Hc Hg) as E.
      apply finishes_of_run in E. rewrite <- app_assoc in E. exact E.
    + eexists.
      apply (finishes_analyze o w1 videoFile _ Hres).
      apply (finishes_inference o videoFile file w1 w2 _ Hwait).
      pose proof (runS_generate_calls o videoFile c res 0
                    (w2 ++ [readyLine file]) Hc Hg) as E.
      apply finishes_of_run in E. rewrite <- app_assoc in E. exact E.
Qed.

(** The first scenario of the spec: the listed file is ACTIVE. *)
Lemma generate_embeds_resolved_file_witness :
  finishes (service (Some [activeFile]) ACTIVE []) resolveRemoteFile []
    (Resolved
       [call ListFiles;
        call (ConsoleLog [LogString "using existing file"; LogFile activeFile])]
       activeFile) /\
  finishes (service (Some [activeFile]) ACTIVE []) (awaitReady activeFile)
    [call ListFiles;
     call (ConsoleLog [LogString "using existing file"; LogFile activeFile])]
    (Resolved
       [call ListFiles;
        call (ConsoleLog [LogString "using existing file"; LogFile activeFile])]
       activeFile) /\
  exists report,
    finishes (service (Some [activeFile]) ACTIVE []) analyzeYouTubeVideo []
      (Resolved
         ([call ListFiles;
           call (ConsoleLog [LogString "using existing file"; LogFile activeFile])]
          ++ [readyLine activeFile;
              call (CountTokens (request activeFile));
              tokenCountLine {| totalTokens := 1000 |};
              call (GenerateContent (request activeFile));
              report])
         tt).
Proof.
  assert (Hres :
    finishes (service (Some [activeFile]) ACTIVE []) resolveRemoteFile []
      (Resolved
         [call ListFiles;
          call (ConsoleLog [LogString "using existing file"; LogFile activeFile])]
         activeFile)).
  { apply (finishes_intro _ 2); reflexivity. }
  assert (Hwait :
    finishes (service (Some [activeFile]) ACTIVE []) (awaitReady activeFile)
      [call ListFiles;
       call (ConsoleLog [LogString "using existing file"; LogFile activeFile])]
      (Resolved
         [call ListFiles;
          call (ConsoleLog [LogString "using existing file"; LogFile activeFile])]
         activeFile)).
  { apply (finishes_intro _ 0); reflexivity. }
  split; [exact Hres|split; [exact Hwait|]].
  exact (proj2 (generate_embeds_resolved_file
                  (service (Some [activeFile]) ACTIVE [])
                  activeFile activeFile _ _ Hres Hwait)).
Defined.

(** C8.  Let the resolve step return [videoFile] and the wait-for-ready
    step return [file].  An error [e] raised by the token count, by the
    generation call or by reading its function calls is caught: it is
    printed with [console.error], nothing more is called, and the run
    resolves. *)
Theorem generation_errors_are_swallowed (o : Oracle)
    (videoFile file : FileMetadataResponse) (w1 w2 : Trace) (e : JsError) :
  finishes o resolveRemoteFile [] (Resolved w1 videoFile) ->
  finishes o (awaitReady videoFile) w1 (Resolved w2 file) ->
  (countTokens o (request videoFile) = inl e ->
   finishes o analyzeYouTubeVideo []
     (Resolved
        (w2 ++ [readyLine file;
                call (CountTokens (request videoFile));
                call (ConsoleError
                  [LogString "Error generating content:"; LogError e])])
        tt)) /\
  (forall c,
     countTokens o (request videoFile) = inr c ->
     generateContent o (request videoFile) = inl e ->
     finishes o analyzeYouTubeVideo []
       (Resolved
          (w2 ++ [readyLine file;
                  call (CountTokens (request videoFile));
                  tokenCountLine c;
                  call (GenerateContent (request videoFile));
                  call (ConsoleError
                    [LogString "Error generating content:"; LogError e])])
          tt)) /\
  (forall c res,
     countTokens o (request videoFile) = inr c ->
     generateContent o (request videoFile) = inr res ->
     functionCalls (response res) = inl e ->
     finishes o analyzeYouTubeVideo []
       (Resolved
          (w2 ++ [readyLine file;
                  call (CountTokens (request videoFile));
                  tokenCountLine c;
                  call (GenerateContent (request videoFile));
                  call (ConsoleError
                    [LogString "Error generating content:"; LogError e])])
          tt)).
Proof.
  intros Hres Hwait. split; [|split].
  - intros Hc.
    apply (finishes_analyze o w1 videoFile _ Hres).
    apply (finishes_inference o videoFile file w1 w2 _ Hwait).
    pose proof (runS_generate_count_fails o videoFile e 0 (w2 ++ [readyLine file]) Hc)
      as E.
    apply finishes_of_run in E. rewrite <- app_assoc in E. exact E.
  - intros c Hc Hg.
    apply (finishes_analyze o w1 videoFile _ Hres).
    apply (finishes_inference o videoFile file w1 w2 _ Hwait).
    pose proof (runS_generate_content_fails o videoFile c e 0
                  (w2 ++ [readyLine file]) Hc Hg) as E.
    apply finishes_of_run in E. rewrite <- app_assoc in E. exact E.
  - intros c res Hc Hg Hf.
    apply (finishes_analyze o w1 videoFile _ Hres).
    apply (finishes_inference o videoFile file w1 w2 _ Hwait).
    pose proof (runS_generate_calls o videoFile c res 0
                  (w2 ++ [readyLine file]) Hc Hg) as E.
    rewrite Hf in E.
    apply finishes_of_run in E. rewrite <- app_assoc in E. exact E.
Qed.

Lemma generation_errors_are_swallowed_witness :
  finishes countFails resolveRemoteFile []
    (Resolved
       [call ListFiles;
        call (ConsoleLog [LogString "using existing file"; LogFile activeFile])]
       activeFile) /\
  finishes countFails (awaitReady activeFile)
    [call ListFiles;
     call (ConsoleLog [LogString "using existing file"; LogFile activeFile])]
    (Resolved
       [call ListFiles;
        call (ConsoleLog [LogString "using existing file"; LogFile activeFile])]
       activeFile) /\
  countTokens countFails (request activeFile) = inl quotaError /\
  finishes countFails analyzeYouTubeVideo []
    (Resolved
       [call ListFiles;
        call (ConsoleLog [LogString "using existing file"; LogFile activeFile]);
        readyLine activeFile;
        call (CountTokens (request activeFile));
        call (ConsoleError
          [LogString "Error generating content:"; LogError quotaError])]
       tt).
Proof.
  assert (Hres :
    finishes countFails resolveRemoteFile []
      (Resolved
         [call ListFiles;
          call (ConsoleLog [LogString "using existing file"; LogFile activeFile])]
         activeFile)).
  { apply (finishes_intro _ 2); reflexivity. }
  assert (Hwait :
    finishes countFails (awaitReady activeFile)
      [call ListFiles;
       call (ConsoleLog [LogString "using existing file"; LogFile activeFile])]
      (Resolved
         [call ListFiles;
          call (ConsoleLog [LogString "using existing file"; LogFile activeFile])]
         activeFile)).
  { apply (finishes_intro _ 0); reflexivity. }
  split; [exact Hres|split; [exact Hwait|split; [reflexivity|]]].
  exact (proj1 (generation_errors_are_swallowed countFails activeFile activeFile
                  _ _ quotaError Hres Hwait) eq_refl).
Defined.

(** ** The scenarios of the spec, executed *)

(** The listing holds the ACTIVE file: it is reused, no upload and no fetch
    is made, and the model is called once. *)
Example scenario_reuse_active :
  exec (service (Some [activeFile]) ACTIVE []) 7 analyzeYouTubeVideo [] =
  Resolved
    [call ListFiles;
     call (ConsoleLog [LogString "using existing file"; LogFile activeFile]);
     readyLine activeFile;
     call (CountTokens (request activeFile));
     tokenCountLine {| totalTokens := 1000 |};
     call (GenerateContent (request activeFile));
     call (ConsoleLog [LogString "No functions called"])]
    tt.
Proof. reflexivity. Qed.

(** The listing is empty and the upload answers PROCESSING: the file is
    polled until a fetch reports ACTIVE, then the model is called once. *)
Example scenario_upload_then_active :
  exec (service (Some []) PROCESSING [PROCESSING]) 17 analyzeYouTubeVideo [] =
  Resolved
    (uploadAttempt
     ++ [uploadedLine {| file := withState activeFile PROCESSING |}]
     ++ polls "files/ai-persuasion" 2
     ++ [readyLine activeFile;
         call (CountTokens (request (withState activeFile PROCESSING)));
         tokenCountLine {| totalTokens := 1000 |};
         call (GenerateContent (request (withState activeFile PROCESSING)));
         call (ConsoleLog [LogString "No functions called"])])
    tt.
Proof. reflexivity. Qed.

(** The fetches report PROCESSING, then FAILED: the run rejects after the
    second fetch and the model is not called. *)
Example scenario_processing_then_failed :
  exec (service (Some []) PROCESSING [PROCESSING; FAILED]) 12
    analyzeYouTubeVideo [] =
  Rejected
    (uploadAttempt
     ++ [uploadedLine {| file := withState activeFile PROCESSING |}]
     ++ polls "files/ai-persuasion" 2)
    (Error "Video processing failed.").
Proof. reflexivity. Qed.

(** ** Errors of the file manager *)

(** X1.  An error of the listing call, or of the upload call when nothing
    is reused, rejects the whole run with that very error: the failing
    call is the last call of the run, so no fetch is made and the model is
    never called. *)
Theorem resolve_errors_reject_the_run (o : Oracle) (e : JsError) :
  (listFiles o = inl e ->
   finishes o analyzeYouTubeVideo [] (Rejected [call ListFiles] e)) /\
  (forall r,
     listFiles o = inr r ->
     (forall g, In g (filesOrEmpty r) -> name g <> "files/ai-persuasion") ->
     uploadFile o "./videos/video.mp4"
       {| FileMetadata.mimeType := "video/mp4";
          FileMetadata.displayName := "AI Persuasion";
          FileMetadata.name := "ai-persuasion" |} = inl e ->
     finishes o analyzeYouTubeVideo [] (Rejected uploadAttempt e)).
Proof.
  split.
  - intros Hl. unfold analyzeYouTubeVideo. apply finishes_bind_rejected.
    apply (finishes_of_run o resolveRemoteFile [] (1 + 0) 0 _ (inl e)).
    apply (runS_resolve_list_fails o e 0 [] Hl).
  - intros r Hl Hno Hu. unfold analyzeYouTubeVideo.
    apply finishes_bind_rejected.
    apply (finishes_of_run o resolveRemoteFile [] (3 + 0) 0 _ (inl e)).
    apply (runS_resolve_upload_fails o r e 0 [] Hl); [|exact Hu].
    intros g Hg. apply String.eqb_neq. apply Hno; exact Hg.
Qed.

Lemma resolve_errors_reject_the_run_witness :
  listFiles listFails = inl quotaError /\
  finishes listFails analyzeYouTubeVideo [] (Rejected [call ListFiles] quotaError) /\
  listFiles uploadFails = inr (Some {| files := Some [] |}) /\
  finishes uploadFails analyzeYouTubeVideo [] (Rejected uploadAttempt quotaError).
Proof.
  split; [reflexivity|split; [|split; [reflexivity|]]].
  - exact (proj1 (resolve_errors_reject_the_run listFails quotaError) eq_refl).
  - apply (proj2 (resolve_errors_reject_the_run uploadFails quotaError)
             (Some {| files := Some [] |}) eq_refl).
    + intros g [].
    + reflexivity.
Defined.

Section FetchErrors.

Variable o : Oracle.
Variable videoFile : FileMetadataResponse.

(** The fetches answer with the PROCESSING files [fs], the next one
    rejects: the loop stops there with the error. *)
Lemma runS_loop_fetch_fails (e : JsError) (fs : list FileMetadataResponse) :
  forall (cur : FileMetadataResponse) (w : Trace) (n : nat),
    (forall i g, nth_error fs i = Some g ->
                 getFile o (count isGetFile w + i) (name videoFile) = inr g) ->
    (forall g, In g (cur :: fs) -> state g = PROCESSING) ->
    getFile o (count isGetFile w + length fs) (name videoFile) = inl e ->
    runS o (4 * length fs + 3 + n) (Basics.iter (pollOnce videoFile) cur) w =
    (n, w ++ polls (name videoFile) (S (length fs)), Some (inl e)).
Proof.
  induction fs as [|g fs IH]; intros cur w n Hget Hproc Hfail.
  - cbn [length] in *. rewrite Nat.add_0_r in Hfail.
    change (4 * 0 + 3 + n) with (3 + n).
    rewrite runS_iter, runS_pollOnce, Hfail by (apply Hproc; left; reflexivity).
    cbn [polls]. rewrite app_nil_r. reflexivity.
  - assert (Hc : state cur = PROCESSING) by (apply Hproc; left; reflexivity).
    replace (4 * length (g :: fs) + 3 + n)
      with (3 + S (4 * length fs + 3 + n)) by (cbn [length]; lia).
    rewrite runS_iter, runS_pollOnce by assumption.
    rewrite <- (Nat.add_0_r (count isGetFile w)), (Hget 0 g eq_refl).
    rewrite IH.
    + rewrite <- app_assoc. reflexivity.
    + intros i h Hi. rewrite count_app.
      change (count isGetFile (pollCalls (name videoFile))) with 1.
      replace (count isGetFile w + 1 + i) with (count isGetFile w + S i) by lia.
      apply Hget. exact Hi.
    + intros h Hh. apply Hproc. right. exact Hh.
    + rewrite count_app.
      change (count isGetFile (pollCalls (name videoFile))) with 1.
      replace (count isGetFile w + 1 + length fs)
        with (count isGetFile w + length (g :: fs)) by (cbn [length]; lia).
      exact Hfail.
Qed.

Lemma finishes_awaitReady_fetch_fails (e : JsError)
    (fs : list FileMetadataResponse) (w : Trace) :
  (forall i g, nth_error fs i = Some g ->
               getFile o (count isGetFile w + i) (name videoFile) = inr g) ->
  (forall g, In g (videoFile :: fs) -> state g = PROCESSING) ->
  getFile o (count isGetFile w + length fs) (name videoFile) = inl e ->
  finishes o (awaitReady videoFile) w
    (Rejected (w ++ polls (name videoFile) (S (length fs))) e).
Proof.
  intros Hget Hproc Hfail.
  apply (finishes_of_run o _ w (4 * length fs + 3 + 0) 0 _ (inl e)).
  unfold awaitReady.
  rewrite runS_bind,
    (runS_loop_fetch_fails e fs videoFile w 0 Hget Hproc Hfail).
  reflexivity.
Qed.

End FetchErrors.

(** X2.  Let the resolve step return [videoFile], PROCESSING, and let the
    fetches answer with the PROCESSING files [fs] before one fetch rejects
    with [e].  The loop does not retry: the run rejects with [e] right
    after that fetch, and the model is never called. *)
Theorem fetch_error_rejects_the_run (o : Oracle)
    (videoFile : FileMetadataResponse) (w1 : Trace)
    (fs : list FileMetadataResponse) (e : JsError) :
  finishes o resolveRemoteFile [] (Resolved w1 videoFile) ->
  (forall i g, nth_error fs i = Some g ->
               getFile o i (name videoFile) = inr g) ->
  (forall g, In g (videoFile :: fs) -> state g = PROCESSING) ->
  getFile o (length fs) (name videoFile) = inl e ->
  finishes o analyzeYouTubeVideo []
    (Rejected (w1 ++ polls (name videoFile) (S (length fs))) e) /\
  count isGetFile (w1 ++ polls (name videoFile) (S (length fs))) =
    S (length fs) /\
  count isCountTokens (w1 ++ polls (name videoFile) (S (length fs))) = 0 /\
  count isGenerateContent (w1 ++ polls (name videoFile) (S (length fs))) = 0.
Proof.
  intros Hres Hget Hproc Hfail.
  destruct (resolve_calls o _ Hres) as [Hg [Hc Hgen]]. cbn [traceOf] in *.
  split; [|split; [|split]].
  - apply (finishes_analyze o w1 videoFile _ Hres).
    apply finishes_inference_rejected.
    apply (finishes_awaitReady_fetch_fails o videoFile e fs w1).
    + intros i g Hi. rewrite Hg. apply Hget; exact Hi.
    + exact Hproc.
    + rewrite Hg. exact Hfail.
  - rewrite count_app, count_polls_GetFile, Hg. reflexivity.
  - rewrite count_app, count_polls_other, Hc; reflexivity.
  - rewrite count_app, count_polls_other, Hgen; reflexivity.
Qed.

Lemma fetch_error_rejects_the_run_witness :
  finishes fetchFails resolveRemoteFile []
    (Resolved
       (uploadAttempt ++ [uploadedLine {| file := withState activeFile PROCESSING |}])
       (withState activeFile PROCESSING)) /\
  getFile fetchFails 1 (name (withState activeFile PROCESSING)) = inl quotaError /\
  finishes fetchFails analyzeYouTubeVideo []
    (Rejected
       ((uploadAttempt ++ [uploadedLine {| file := withState activeFile PROCESSING |}])
        ++ polls "files/ai-persuasion" 2)
       quotaError).
Proof.
  assert (Hres :
    finishes fetchFails resolveRemoteFile []
      (Resolved
         (uploadAttempt ++ [uploadedLine {| file := withState activeFile PROCESSING |}])
         (withState activeFile PROCESSING))).
  { apply (finishes_intro _ 4); reflexivity. }
  split; [exact Hres|split; [reflexivity|]].
  apply (fetch_error_rejects_the_run fetchFails
           (withState activeFile PROCESSING) _
           [withState activeFile PROCESSING] quotaError Hres).
  - intros [|[|i]] g H; cbn in H; try discriminate;
      injection H as <-; reflexivity.
  - intros g [<-|[<-|[]]]; reflexivity.
  - reflexivity.
Defined.

(** ** The generate step, whatever the model answers *)

Section GenerateAlways.

Variable o : Oracle.
Variable videoFile : FileMetadataResponse.

Lemma finishes_generate (w : Trace) :
  finishes o (generate videoFile) w
    (Resolved (w ++ generateCalls o videoFile) tt).
Proof.
  unfold generateCalls.
  destruct (countTokens o (request videoFile)) as [e|c] eqn:Hc.
  - apply (finishes_of_run o _ w (2 + 0) 0 _ (inr tt)).
    apply (runS_generate_count_fails o videoFile e 0 w Hc).
  - destruct (generateContent o (request videoFile)) as [e|res] eqn:Hg.
    + apply (finishes_of_run o _ w (4 + 0) 0 _ (inr tt)).
      apply (runS_generate_content_fails o videoFile c e 0 w Hc Hg).
    + apply (finishes_of_run o _ w (4 + 0) 0 _ (inr tt)).
      apply (runS_generate_calls o videoFile c res 0 w Hc Hg).
Qed.

(** The model calls of the step: the token count, then at most the
    generation call. *)
Lemma generateCalls_model :
  exists j,
    filter isModelCall (generateCalls o videoFile) =
    firstn j [call (CountTokens (request videoFile));
              call (GenerateContent (request videoFile))].
Proof.
  unfold generateCalls.
  destruct (countTokens o (request videoFile)) as [e|c].
  - exists 1. reflexivity.
  - exists 2.
    destruct (generateContent o (request videoFile)) as [e|res];
      [reflexivity|].
    destruct (functionCalls (response res)) as [e|[calls|]]; reflexivity.
Qed.

Lemma generateCalls_other (p : Call -> bool) :
  (forall r, p (call (CountTokens r)) = false) ->
  (forall r, p (call (GenerateContent r)) = false) ->
  (forall args, p (call (ConsoleLog args)) = false) ->
  (forall args, p (call (ConsoleError args)) = false) ->
  count p (generateCalls o videoFile) = 0.
Proof.
  intros H1 H2 H3 H4. unfold generateCalls, count.
  destruct (countTokens o (request videoFile)) as [e|c].
  - cbn [filter]. unfold errorLine. rewrite H1, H4. reflexivity.
  - cbn [filter]. unfold tokenCountLine. rewrite H1, H2, H3.
    destruct (generateContent o (request videoFile)) as [e|res].
    + unfold errorLine. rewrite H4. reflexivity.
    + destruct (functionCalls (response res)) as [e|[calls|]];
        unfold errorLine; rewrite ?H3, ?H4; reflexivity.
Qed.

End GenerateAlways.

(** X3.  The generate step never throws and never hangs: whatever the token
    count and the generation call answer, it first requests the token
    count of the request, makes at most one generation call, and returns
    normally. *)
Theorem generate_always_resolves (o : Oracle) (videoFile : FileMetadataResponse)
    (w : Trace) :
  exists calls j,
    finishes o (generate videoFile) w
      (Resolved (w ++ call (CountTokens (request videoFile)) :: calls) tt) /\
    filter isModelCall (call (CountTokens (request videoFile)) :: calls) =
      firstn (S j) [call (CountTokens (request videoFile));
                    call (GenerateContent (request videoFile))].
Proof.
  pose proof (finishes_generate o videoFile w) as F.
  destruct (generateCalls_model o videoFile) as [j Hj].
  unfold generateCalls in *.
  eexists. exists (pred j). split; [exact F|].
  rewrite Hj.
  destruct j as [|j]; [|reflexivity].
  cbn [filter isModelCall isCountTokens isGenerateContent call projT2 orb firstn] in Hj.
  discriminate.
Qed.

(** X4.  When the token count and the generation call succeed and
    [functionCalls()] yields an array, the generate step prints that array
    and returns normally; "No functions called" is not printed, not even
    for an empty array. *)
Theorem function_calls_are_printed (o : Oracle)
    (videoFile : FileMetadataResponse) (w : Trace)
    (c : CountTokensResponse) (res : GenerateContentResult)
    (calls : list FunctionCall.t) :
  countTokens o (request videoFile) = inr c ->
  generateContent o (request videoFile) = inr res ->
  functionCalls (response res) = inr (Some calls) ->
  finishes o (generate videoFile) w
    (Resolved
       (w ++ [call (CountTokens (request videoFile));
              tokenCountLine c;
              call (GenerateContent (request videoFile));
              call (ConsoleLog [LogJson calls])])
       tt).
Proof.
  intros Hc Hg Hf.
  pose proof (runS_generate_calls o videoFile c res 0 w Hc Hg) as E.
  rewrite Hf in E. apply finishes_of_run in E. exact E.
Qed.

Lemma function_calls_are_printed_witness :
  countTokens selectsTitle (request activeFile) = inr {| totalTokens := 1000 |} /\
  generateContent selectsTitle (request activeFile) =
    inr {| response := {| functionCalls := inr (Some [titleCall]) |} |} /\
  finishes selectsTitle (generate activeFile) []
    (Resolved
       [call (CountTokens (request activeFile));
        tokenCountLine {| totalTokens := 1000 |};
        call (GenerateContent (request activeFile));
        call (ConsoleLog [LogJson [titleCall]])]
       tt).
Proof.
  split; [reflexivity|split; [reflexivity|]].
  exact (function_calls_are_printed selectsTitle activeFile []
           {| totalTokens := 1000 |}
           {| response := {| functionCalls := inr (Some [titleCall]) |} |}
           [titleCall] eq_refl eq_refl eq_refl).
Defined.

(** ** The stages of a run *)

Lemma count_firstn (p : Call -> bool) (l : Trace) :
  forall m, count p (firstn m l) <= count p l.
Proof.
  unfold count. induction l as [|c l IH]; intros [|m]; cbn [firstn filter length];
    try lia.
  specialize (IH m). destruct (p c); cbn [length]; lia.
Qed.

Lemma count_zero_filter (p : Call -> bool) (w : Trace) :
  count p w = 0 -> filter p w = [].
Proof. unfold count. apply length_zero_iff_nil. Qed.

Lemma count_isModelCall (w : Trace) :
  count isModelCall w <= count isCountTokens w + count isGenerateContent w.
Proof.
  unfold count, isModelCall. induction w as [|c w IH]; [reflexivity|].
  cbn [filter].
  destruct (isCountTokens c), (isGenerateContent c); cbn [orb length]; lia.
Qed.

(** A prefix of a list of at most one count and one generation call. *)
Lemma prefix_of_firstn {A : Type} (a b l : list A) (j : nat) :
  a ++ b = firstn j l -> a = firstn (length a) l.
Proof.
  intros E.
  assert (H : firstn (length a) (a ++ b) = a).
  { rewrite firstn_app, Nat.sub_diag, firstn_all. cbn [firstn].
    apply app_nil_r. }
  rewrite E, firstn_firstn in H.
  assert (Hle : length a <= j).
  { apply (f_equal (@length A)) in E. rewrite length_app, length_firstn in E. lia. }
  rewrite Nat.min_l in H by exact Hle. symmetry. exact H.
Qed.

Section Stages.

Variable o : Oracle.

(** What has been done after some steps is part of what is done at the end. *)
Lemma finishes_prefix {R : Type} (s : Script R) (w : Trace) (out : Outcome R) :
  finishes o s w out ->
  forall fuel, exists rest, traceOf out = traceOf (exec o fuel s w) ++ rest.
Proof.
  intros [_ [n Hn]] fuel.
  destruct (exec_trace_more o fuel (fuel + n) s w) as [rest E]; [lia|].
  rewrite Hn in E by lia. exists rest. exact E.
Qed.

(** The resolve step always ends, after one listing call and at most one
    upload call. *)
Lemma resolve_finishes :
  exists out,
    finishes o resolveRemoteFile [] out /\
    count isListFiles (traceOf out) = 1 /\
    count isUploadFile (traceOf out) <= 1.
Proof.
  destruct (listFiles o) as [e|r] eqn:Hl.
  - pose proof (runS_resolve_list_fails o e 0 [] Hl) as E.
    apply finishes_of_run in E.
    eexists. split; [exact E|]. split; [reflexivity|cbn; lia].
  - destruct (existsb named (filesOrEmpty r)) eqn:Ex.
    + apply existsb_exists in Ex. destruct Ex as [e [Hin He]].
      destruct (split_last_named _ _ Hin He) as [l1 [f [l2 [Hs [Hf Hl2]]]]].
      pose proof (runS_resolve_reuse o r l1 l2 f 0 [] Hl Hs Hf Hl2) as E.
      apply finishes_of_run in E.
      eexists. split; [exact E|]. cbn [traceOf app].
      change (call ListFiles :: ?l) with ([call ListFiles] ++ l).
      rewrite !count_app, !count_usingExisting by reflexivity.
      split; [reflexivity|cbn; lia].
    + assert (Hno : forall g, In g (filesOrEmpty r) -> named g = false).
      { intros g Hg. destruct (named g) eqn:Hn; [|reflexivity].
        assert (existsb named (filesOrEmpty r) = true)
          by (apply existsb_exists; eauto).
        congruence. }
      destruct (uploadFile o "./videos/video.mp4" uploadMetadata) as [e|u] eqn:Hu.
      * pose proof (runS_resolve_upload_fails o r e 0 [] Hl Hno Hu) as E.
        apply finishes_of_run in E.
        eexists. split; [exact E|]. split; [reflexivity|cbn; lia].
      * pose proof (runS_resolve_upload o r u 0 [] Hl Hno Hu) as E.
        apply finishes_of_run in E.
        eexists. split; [exact E|]. split; [reflexivity|cbn; lia].
Qed.

(** After any number of steps a run is in one of three stages: still in
    the resolve step (or rejected by it), waiting for the file (or rejected
    by the wait), or in the generate step, which does not reject. *)
Lemma analyze_stages (fuel : nat) :
  (exists out1 rest,
      finishes o resolveRemoteFile [] out1 /\
      traceOf out1 = snd (fst (runS o fuel analyzeYouTubeVideo [])) ++ rest) \/
  (exists w1 videoFile k m,
      finishes o resolveRemoteFile [] (Resolved w1 videoFile) /\
      snd (fst (runS o fuel analyzeYouTubeVideo [])) =
        w1 ++ firstn m (polls (name videoFile) k)) \/
  (exists w1 videoFile w2 file done rest,
      finishes o resolveRemoteFile [] (Resolved w1 videoFile) /\
      finishes o (awaitReady videoFile) w1 (Resolved w2 file) /\
      snd (fst (runS o fuel analyzeYouTubeVideo [])) =
        (w2 ++ [readyLine file]) ++ done /\
      done ++ rest = generateCalls o videoFile /\
      forall e, snd (runS o fuel analyzeYouTubeVideo []) <> Some (inl e)).
Proof.
  unfold analyzeYouTubeVideo. rewrite runS_bind.
  destruct resolve_finishes as [out1 [F1 _]].
  destruct (finishes_prefix _ _ _ F1 fuel) as [rest1 Hr1].
  rewrite exec_trace in Hr1.
  destruct (runS o fuel resolveRemoteFile []) as [[n1 w1] [[e|videoFile]|]] eqn:E1;
    cbn [fst snd] in Hr1;
    try (left; exists out1, rest1; split; [exact F1|exact Hr1]).
  clear out1 F1 rest1 Hr1.
  pose proof (finishes_of_run o _ _ _ _ _ _ E1) as F1. cbn beta iota in F1.
  unfold inference. rewrite runS_bind.
  destruct (exec_awaitReady_shape o videoFile n1 w1) as [k [m Hs]].
  rewrite exec_trace in Hs.
  destruct (runS o n1 (awaitReady videoFile) w1) as [[n2 w2] [[e|file]|]] eqn:E2;
    cbn [fst snd] in Hs;
    try (right; left; exists w1, videoFile, k, m; split; [exact F1|exact Hs]).
  pose proof (finishes_of_run o _ _ _ _ _ _ E2) as F2. cbn beta iota in F2.
  rewrite runS_bind.
  destruct n2 as [|n3].
  - rewrite runS_perform_0.
    right; left; exists w1, videoFile, k, m; split; [exact F1|exact Hs].
  - rewrite runS_perform. fold (readyLine file).
    right; right.
    pose proof (finishes_generate o videoFile (w2 ++ [readyLine file])) as F3.
    destruct (finishes_prefix _ _ _ F3 n3) as [rest Hr].
    rewrite exec_trace in Hr. cbn [traceOf] in Hr.
    destruct (run_trace_from o n3 (unEitherT (generate videoFile))
                (w2 ++ [readyLine file])) as [done Hd].
    fold (runS o n3 (generate videoFile) (w2 ++ [readyLine file])) in Hd.
    rewrite Hd, <- (app_assoc (w2 ++ [readyLine file]) done rest) in Hr.
    apply app_inv_head in Hr.
    exists w1, videoFile, w2, file, done, rest.
    split; [exact F1|split; [exact F2|split; [exact Hd|split; [symmetry; exact Hr|]]]].
    intros e E.
    destruct (runS o n3 (generate videoFile) (w2 ++ [readyLine file]))
      as [[n4 w4] r] eqn:E3.
    cbn [snd] in E. subst r.
    pose proof (finishes_of_run o _ _ _ _ _ _ E3) as F4. cbn beta iota in F4.
    pose proof (finishes_unique o _ _ _ _ F3 F4). discriminate.
Qed.

End Stages.

Section StageCounts.

Variable o : Oracle.

Lemma resolve_prefix_counts (out1 : Outcome FileMetadataResponse)
    (t rest : Trace) :
  finishes o resolveRemoteFile [] out1 ->
  traceOf out1 = t ++ rest ->
  count isListFiles t <= 1 /\ count isUploadFile t <= 1 /\
  filter isModelCall t = [].
Proof.
  intros F1 E.
  destruct (resolve_finishes o) as [out [F [Hl Hu]]].
  rewrite (finishes_unique o _ _ _ _ F F1), E, count_app in Hl, Hu.
  destruct (resolve_calls o _ F1) as [_ [Hc Hg]].
  rewrite E, count_app in Hc, Hg.
  split; [lia|split; [lia|]].
  apply count_zero_filter.
  pose proof (count_isModelCall t). lia.
Qed.

Lemma polls_prefix_count (p : Call -> bool) (fileId : string) (k m : nat) :
  count p (pollCalls fileId) = 0 ->
  count p (firstn m (polls fileId k)) = 0.
Proof.
  intros Hp.
  pose proof (count_firstn p (polls fileId k) m) as H.
  rewrite (count_polls_other p fileId k Hp) in H. lia.
Qed.

Lemma wait_counts (w1 : Trace) (videoFile : FileMetadataResponse) (k m : nat) :
  finishes o resolveRemoteFile [] (Resolved w1 videoFile) ->
  count isListFiles (w1 ++ firstn m (polls (name videoFile) k)) <= 1 /\
  count isUploadFile (w1 ++ firstn m (polls (name videoFile) k)) <= 1 /\
  filter isModelCall (w1 ++ firstn m (polls (name videoFile) k)) = [].
Proof.
  intros F1.
  destruct (resolve_prefix_counts _ w1 [] F1) as [Hl [Hu Hm]];
    [cbn [traceOf]; rewrite app_nil_r; reflexivity|].
  rewrite !count_app, filter_app, Hm.
  rewrite !polls_prefix_count by reflexivity.
  split; [lia|split; [lia|]].
  apply count_zero_filter. apply polls_prefix_count. reflexivity.
Qed.

(** A file returned by the wait was reached by whole turns of the loop. *)
Lemma waited_trace (videoFile file : FileMetadataResponse) (w1 w2 : Trace) :
  finishes o (awaitReady videoFile) w1 (Resolved w2 file) ->
  state file <> PROCESSING /\ state file <> FAILED /\
  exists k, w2 = w1 ++ firstn (3 * k) (polls (name videoFile) k).
Proof.
  intros [_ [n Hn]]. specialize (Hn n (Nat.le_refl n)).
  destruct (exec_awaitReady_returns o videoFile n w1 w2 file Hn)
    as [Hp [Hf [[-> ->]|[k [-> _]]]]];
    split; try exact Hp; split; try exact Hf.
  - exists 0. cbn [Nat.mul firstn polls]. rewrite app_nil_r. reflexivity.
  - exists (S k). rewrite firstn_all2; [reflexivity|].
    generalize (S k). intros j. induction j as [|j IH]; [cbn; lia|].
    cbn [polls]. rewrite length_app. cbn [pollCalls length]. lia.
Qed.

End StageCounts.

(** X5.  Whatever the service answers and however long the run lasts, it
    lists the files at most once, uploads at most once, and its calls to
    the model are at most one token count followed by at most one
    generation call, both on the same request. *)
Theorem service_is_called_at_most_once (o : Oracle) (fuel : nat) :
  count isListFiles (traceOf (exec o fuel analyzeYouTubeVideo [])) <= 1 /\
  count isUploadFile (traceOf (exec o fuel analyzeYouTubeVideo [])) <= 1 /\
  exists videoFile j,
    filter isModelCall (traceOf (exec o fuel analyzeYouTubeVideo [])) =
    firstn j [call (CountTokens (request videoFile));
              call (GenerateContent (request videoFile))].
Proof.
  rewrite exec_trace.
  destruct (analyze_stages o fuel)
    as [[out1 [rest [F1 E]]]
       |[[w1 [videoFile [k [m [F1 E]]]]]
        |[w1 [videoFile [w2 [file [done [rest [F1 [F2 [E [Hd _]]]]]]]]]]]].
  - destruct (resolve_prefix_counts o out1 _ rest F1 E) as [Hl [Hu Hm]].
    split; [exact Hl|split; [exact Hu|]].
    exists activeFile, 0. exact Hm.
  - rewrite E. destruct (wait_counts o w1 videoFile k m F1) as [Hl [Hu Hm]].
    split; [exact Hl|split; [exact Hu|]].
    exists videoFile, 0. exact Hm.
  - rewrite E.
    destruct (waited_trace o videoFile file w1 w2 F2) as [_ [_ [k Hw2]]].
    destruct (wait_counts o w1 videoFile k (3 * k) F1) as [Hl [Hu Hm]].
    rewrite <- Hw2 in Hl, Hu, Hm.
    assert (Hdl : count isListFiles done = 0).
    { pose proof (generateCalls_other o videoFile isListFiles) as H.
      rewrite <- Hd, count_app in H.
      specialize (H (fun _ => eq_refl) (fun _ => eq_refl)
                    (fun _ => eq_refl) (fun _ => eq_refl)). lia. }
    assert (Hdu : count isUploadFile done = 0).
    { pose proof (generateCalls_other o videoFile isUploadFile) as H.
      rewrite <- Hd, count_app in H.
      specialize (H (fun _ => eq_refl) (fun _ => eq_refl)
                    (fun _ => eq_refl) (fun _ => eq_refl)). lia. }
    rewrite !count_app, !filter_app, Hm, Hdl, Hdu.
    split; [cbn; lia|split; [cbn; lia|]].
    destruct (generateCalls_model o videoFile) as [j Hj].
    rewrite <- Hd, filter_app in Hj.
    exists videoFile, (length (filter isModelCall done)).
    cbn [filter isModelCall isCountTokens isGenerateContent readyLine call
         projT2 orb app].
    exact (prefix_of_firstn _ _ _ j Hj).
Qed.

(** X6.  A call to the model appears in a run only after the resolve step
    has returned a file and the wait-for-ready step has returned on a file
    that is neither PROCESSING nor FAILED; the call is the token count or
    the generation call on the request built from the resolved file. *)
Theorem model_is_called_on_a_ready_file (o : Oracle) (fuel : nat) (c : Call) :
  In c (traceOf (exec o fuel analyzeYouTubeVideo [])) ->
  isModelCall c = true ->
  exists w1 videoFile w2 file,
    finishes o resolveRemoteFile [] (Resolved w1 videoFile) /\
    finishes o (awaitReady videoFile) w1 (Resolved w2 file) /\
    state file <> PROCESSING /\ state file <> FAILED /\
    (c = call (CountTokens (request videoFile)) \/
     c = call (GenerateContent (request videoFile))).
Proof.
  rewrite exec_trace. intros Hin Hc.
  assert (Hno : forall t, filter isModelCall t = [] -> ~ In c t).
  { intros t Ht Hi.
    assert (H : In c (filter isModelCall t)) by (apply filter_In; auto).
    rewrite Ht in H. destruct H. }
  destruct (analyze_stages o fuel)
    as [[out1 [rest [F1 E]]]
       |[[w1 [videoFile [k [m [F1 E]]]]]
        |[w1 [videoFile [w2 [file [done [rest [F1 [F2 [E [Hd _]]]]]]]]]]]].
  - destruct (resolve_prefix_counts o out1 _ rest F1 E) as [_ [_ Hm]].
    destruct (Hno _ Hm Hin).
  - rewrite E in Hin.
    destruct (wait_counts o w1 videoFile k m F1) as [_ [_ Hm]].
    destruct (Hno _ Hm Hin).
  - rewrite E in Hin.
    destruct (waited_trace o videoFile file w1 w2 F2) as [Hp [Hf [k Hw2]]].
    destruct (wait_counts o w1 videoFile k (3 * k) F1) as [_ [_ Hm]].
    rewrite <- Hw2 in Hm.
    exists w1, videoFile, w2, file.
    split; [exact F1|split; [exact F2|split; [exact Hp|split; [exact Hf|]]]].
    apply in_app_or in Hin. destruct Hin as [Hin|Hin].
    + apply in_app_or in Hin. destruct Hin as [Hin|[<-|[]]].
      * destruct (Hno _ Hm Hin).
      * discriminate Hc.
    + assert (H : In c (filter isModelCall (generateCalls o videoFile))).
      { apply filter_In. split; [|exact Hc].
        rewrite <- Hd. apply in_or_app. left. exact Hin. }
      destruct (generateCalls_model o videoFile) as [j Hj]. rewrite Hj in H.
      destruct j as [|[|j]]; cbn [firstn In] in H.
      * destruct H.
      * destruct H as [<-|[]]. left. reflexivity.
      * destruct j; cbn [firstn In] in H;
          destruct H as [<-|[<-|[]]]; auto.
Qed.

Lemma model_is_called_on_a_ready_file_witness :
  In (call (GenerateContent (request activeFile)))
     (traceOf (exec (service (Some [activeFile]) ACTIVE []) 7
                 analyzeYouTubeVideo [])) /\
  exists w1 videoFile w2 file,
    finishes (service (Some [activeFile]) ACTIVE []) resolveRemoteFile []
      (Resolved w1 videoFile) /\
    finishes (service (Some [activeFile]) ACTIVE []) (awaitReady videoFile) w1
      (Resolved w2 file) /\
    state file <> PROCESSING /\ state file <> FAILED /\
    (call (GenerateContent (request activeFile)) =
       call (CountTokens (request videoFile)) \/
     call (GenerateContent (request activeFile)) =
       call (GenerateContent (request videoFile))).
Proof.
  assert (Hin :
    In (call (GenerateContent (request activeFile)))
       (traceOf (exec (service (Some [activeFile]) ACTIVE []) 7
                   analyzeYouTubeVideo []))).
  { do 5 right. left. reflexivity. }
  split; [exact Hin|].
  exact (model_is_called_on_a_ready_file
           (service (Some [activeFile]) ACTIVE []) 7
           (call (GenerateContent (request activeFile))) Hin eq_refl).
Defined.

(** X7.  A run that rejects has not called the model: the only errors that
    leave the function come from the listing, the upload, a fetch, or a
    FAILED file, all of them before the token count. *)
Theorem rejected_run_never_called_the_model (o : Oracle) (fuel : nat)
    (w : Trace) (e : JsError) :
  exec o fuel analyzeYouTubeVideo [] = Rejected w e ->
  filter isModelCall w = [].
Proof.
  intros Hrej.
  assert (Hw : snd (fst (runS o fuel analyzeYouTubeVideo [])) = w)
    by (rewrite <- exec_trace, Hrej; reflexivity).
  assert (He : snd (runS o fuel analyzeYouTubeVideo []) = Some (inl e)).
  { unfold exec in Hrej.
    destruct (runS o fuel analyzeYouTubeVideo []) as [[n' w'] [[e'|v]|]];
      try discriminate.
    injection Hrej as _ <-. reflexivity. }
  destruct (analyze_stages o fuel)
    as [[out1 [rest [F1 E]]]
       |[[w1 [videoFile [k [m [F1 E]]]]]
        |[w1 [videoFile [w2 [file [done [rest [F1 [F2 [E [Hd Hne]]]]]]]]]]]].
  - rewrite Hw in E.
    destruct (resolve_prefix_counts o out1 _ rest F1 E) as [_ [_ Hm]].
    exact Hm.
  - rewrite Hw in E. rewrite E.
    destruct (wait_counts o w1 videoFile k m F1) as [_ [_ Hm]]. exact Hm.
  - destruct (Hne e He).
Qed.

Lemma rejected_run_never_called_the_model_witness :
  exec (service (Some []) PROCESSING [PROCESSING; FAILED]) 12
    analyzeYouTubeVideo [] =
  Rejected
    (uploadAttempt
     ++ [uploadedLine {| file := withState activeFile PROCESSING |}]
     ++ polls "files/ai-persuasion" 2)
    (Error "Video processing failed.") /\
  filter isModelCall
    (uploadAttempt
     ++ [uploadedLine {| file := withState activeFile PROCESSING |}]
     ++ polls "files/ai-persuasion" 2) = [].
Proof.
  split; [reflexivity|].
  exact (rejected_run_never_called_the_model
           (service (Some []) PROCESSING [PROCESSING; FAILED]) 12 _ _ eq_refl).
Defined.

(** ** When a run does not end *)

Section Hanging.

Variable o : Oracle.

(** Once the wait-for-ready step has ended, so does the run. *)
Lemma analyze_ends_after_wait (w1 : Trace) (videoFile : FileMetadataResponse)
    (out2 : Outcome FileMetadataResponse) :
  finishes o resolveRemoteFile [] (Resolved w1 videoFile) ->
  finishes o (awaitReady videoFile) w1 out2 ->
  exists out, finishes o analyzeYouTubeVideo [] out.
Proof.
  intros F1 F2. destruct out2 as [w2|w2 file|w2 e].
  - destruct F2 as [H _]. discriminate.
  - eexists. apply (finishes_analyze o w1 videoFile _ F1).
    apply (finishes_inference o videoFile file w1 w2 _ F2).
    apply finishes_generate.
  - eexists. apply (finishes_analyze o w1 videoFile _ F1).
    apply finishes_inference_rejected. exact F2.
Qed.

(** A wait that never ends has seen [i] PROCESSING files in a row, for
    every [i]. *)
Lemma endless_wait_fetches (w1 : Trace) (videoFile : FileMetadataResponse) :
  count isGetFile w1 = 0 ->
  state videoFile = PROCESSING ->
  (forall out2, ~ finishes o (awaitReady videoFile) w1 out2) ->
  forall i, exists fs,
    length fs = i /\
    (forall j g, nth_error fs j = Some g ->
                 getFile o j (name videoFile) = inr g) /\
    (forall g, In g fs -> state g = PROCESSING).
Proof.
  intros Hg Hv Hnever. induction i as [|i [fs [Hlen [Hget Hproc]]]].
  - exists []. split; [reflexivity|split].
    + intros [|j] g H; discriminate.
    + intros g [].
  - assert (Hget' : forall j g, nth_error fs j = Some g ->
              getFile o (count isGetFile w1 + j) (name videoFile) = inr g)
      by (intros j g Hj; rewrite Hg; apply Hget; exact Hj).
    destruct (getFile o i (name videoFile)) as [e|g] eqn:Hi.
    + exfalso. apply (Hnever (Rejected (w1 ++ polls (name videoFile) (S (length fs))) e)).
      apply (finishes_awaitReady_fetch_fails o videoFile e fs w1 Hget').
      * intros h [<-|Hh]; [exact Hv|apply Hproc; exact Hh].
      * rewrite Hg, Hlen. exact Hi.
    + assert (Hget2 : forall j h, nth_error (fs ++ [g]) j = Some h ->
                getFile o j (name videoFile) = inr h).
      { intros j h Hj. destruct (Nat.lt_ge_cases j (length fs)) as [Hlt|Hge].
        - rewrite nth_error_app1 in Hj by exact Hlt. apply Hget; exact Hj.
        - rewrite nth_error_app2 in Hj by exact Hge.
          destruct (j - length fs) as [|d] eqn:Hd.
          + injection Hj as <-. replace j with i by lia. exact Hi.
          + destruct d; discriminate. }
      destruct (FileState_eqb (state g) PROCESSING) eqn:Hs.
      * exists (fs ++ [g]). split; [rewrite length_app; cbn; lia|split].
        -- exact Hget2.
        -- intros h Hh. apply in_app_or in Hh. destruct Hh as [Hh|[<-|[]]].
           ++ apply Hproc; exact Hh.
           ++ destruct (state g); now inversion Hs.
      * exfalso.
        pose proof (runS_awaitReady o videoFile (fs ++ [g]) w1 0) as E.
        rewrite last_last in E.
        apply finishes_of_run in E.
        -- exact (Hnever _ E).
        -- intros j h Hj. rewrite Hg. apply Hget2; exact Hj.
        -- change (videoFile :: fs ++ [g]) with ((videoFile :: fs) ++ [g]).
           rewrite removelast_last.
           intros h [<-|Hh]; [exact Hv|apply Hproc; exact Hh].
        -- intros Hp. rewrite Hp in Hs. discriminate.
Qed.

End Hanging.

(** X8.  Polling is the only way for a run not to end: when a run never
    ends, the resolve step has returned a PROCESSING file and every fetch
    of that file answers with a PROCESSING file. *)
Theorem run_hangs_only_while_processing (o : Oracle) :
  diverges o analyzeYouTubeVideo [] ->
  exists w1 videoFile,
    finishes o resolveRemoteFile [] (Resolved w1 videoFile) /\
    state videoFile = PROCESSING /\
    forall i, exists g,
      getFile o i (name videoFile) = inr g /\ state g = PROCESSING.
Proof.
  intros D.
  assert (Hnot : forall out, ~ finishes o analyzeYouTubeVideo [] out)
    by (intros out; apply diverges_not_finishes; exact D).
  destruct (resolve_finishes o) as [out1 [F1 _]].
  destruct out1 as [w1|w1 videoFile|w1 e].
  - destruct F1 as [H _]. discriminate.
  - assert (Hnever : forall out2, ~ finishes o (awaitReady videoFile) w1 out2).
    { intros out2 F2.
      destruct (analyze_ends_after_wait o w1 videoFile out2 F1 F2) as [out F].
      exact (Hnot out F). }
    destruct (resolve_calls o _ F1) as [Hg _]. cbn [traceOf] in Hg.
    assert (Hv : state videoFile = PROCESSING).
    { destruct (FileState_eqb (state videoFile) PROCESSING) eqn:Hs;
        [destruct (state videoFile); now inversion Hs|].
      exfalso.
      pose proof (runS_awaitReady o videoFile [] w1 0) as E.
      apply finishes_of_run in E.
      - exact (Hnever _ E).
      - intros [|j] g H; discriminate.
      - intros g [].
      - cbn [last]. intros Hp. rewrite Hp in Hs. discriminate. }
    exists w1, videoFile. split; [exact F1|split; [exact Hv|]].
    intros i.
    destruct (endless_wait_fetches o w1 videoFile Hg Hv Hnever (S i))
      as [fs [Hlen [Hget Hproc]]].
    destruct (nth_error fs i) as [g|] eqn:Hi.
    + exists g. split; [apply Hget; exact Hi|].
      apply Hproc. apply nth_error_In with (n := i). exact Hi.
    + apply nth_error_None in Hi. lia.
  - exfalso. apply (Hnot (Rejected w1 e)).
    unfold analyzeYouTubeVideo. apply finishes_bind_rejected. exact F1.
Qed.

(** The stuck service, from the upload on. *)
Lemma stuckService_diverges : diverges stuckService analyzeYouTubeVideo [].
Proof.
  assert (Hres :
    finishes stuckService resolveRemoteFile []
      (Resolved
         (uploadAttempt ++ [uploadedLine {| file := withState activeFile PROCESSING |}])
         (withState activeFile PROCESSING))).
  { apply (finishes_intro _ 4); reflexivity. }
  unfold analyzeYouTubeVideo.
  apply (diverges_after stuckService _ _ _ _ _ Hres).
  unfold inference. apply diverges_bind.
  intros fuel. apply pending_before with (m := 3 * fuel).
  replace (fuel + 3 * fuel) with (4 * fuel) by lia.
  unfold exec, awaitReady.
  rewrite runS_bind, runS_loop_running.
  - reflexivity.
  - reflexivity.
  - intros i _. exists (withState activeFile PROCESSING). split; reflexivity.
Qed.

Lemma run_hangs_only_while_processing_witness :
  diverges stuckService analyzeYouTubeVideo [] /\
  exists w1 videoFile,
    finishes stuckService resolveRemoteFile [] (Resolved w1 videoFile) /\
    state videoFile = PROCESSING /\
    forall i, exists g,
      getFile stuckService i (name videoFile) = inr g /\ state g = PROCESSING.
Proof.
  split; [exact stuckService_diverges|].
  exact (run_hangs_only_while_processing stuckService stuckService_diverges).
Defined.

(** ** The module body *)

(** X9.  When [GEMINI_API_KEY] is not set or is the empty string the module
    throws "Environment variable GEMINI_API_KEY is missing." before any
    call is made; with any other value it runs [analyzeYouTubeVideo]. *)
Theorem main_checks_the_key (o : Oracle) (fuel : nat) (key : option string) :
  (key = None \/ key = Some "" ->
   exec o fuel (main key) [] =
   Rejected [] (Error "Environment variable GEMINI_API_KEY is missing.")) /\
  (forall k, key = Some k -> k <> "" ->
   exec o fuel (main key) [] = exec o fuel analyzeYouTubeVideo []).
Proof.
  split.
  - intros [->| ->]; unfold exec, main; cbn [String.eqb];
      rewrite runS_raise; reflexivity.
  - intros k -> Hk. unfold main.
    destruct (String.eqb_spec k ""); [contradiction|reflexivity].
Qed.

Lemma main_checks_the_key_witness :
  exec (service (Some [activeFile]) ACTIVE []) 7 (main (Some "")) [] =
    Rejected [] (Error "Environment variable GEMINI_API_KEY is missing.") /\
  exec (service (Some [activeFile]) ACTIVE []) 7 (main (Some "AIza")) [] =
    exec (service (Some [activeFile]) ACTIVE []) 7 analyzeYouTubeVideo [].
Proof.
  split.
  - apply (proj1 (main_checks_the_key (service (Some [activeFile]) ACTIVE []) 7
                    (Some ""))).
    right. reflexivity.
  - apply (proj2 (main_checks_the_key (service (Some [activeFile]) ACTIVE []) 7
                    (Some "AIza")) "AIza" eq_refl).
    discriminate.
Defined.

(** ** From the resolved file to the end of the run *)

(** X10.  Let the resolve step return [videoFile], and let [fs] be the files
    the fetches answer with, every file seen before the last being
    PROCESSING and the last one neither PROCESSING nor FAILED.  Then the
    run resolves, and its calls after the resolve step are exactly
    [length fs] turns of the loop, the console line that names the file
    seen last, and the calls of the generate step on the request built
    from [videoFile]. *)
Theorem run_resolves_once_the_file_is_ready (o : Oracle)
    (videoFile : FileMetadataResponse) (w1 : Trace)
    (fs : list FileMetadataResponse) :
  finishes o resolveRemoteFile [] (Resolved w1 videoFile) ->
  (forall i g, nth_error fs i = Some g ->
               getFile o i (name videoFile) = inr g) ->
  (forall g, In g (removelast (videoFile :: fs)) -> state g = PROCESSING) ->
  state (last fs videoFile) <> PROCESSING ->
  state (last fs videoFile) <> FAILED ->
  finishes o analyzeYouTubeVideo []
    (Resolved
       ((w1 ++ polls (name videoFile) (length fs))
        ++ readyLine (last fs videoFile) :: generateCalls o videoFile)
       tt) /\
  count isGetFile
    ((w1 ++ polls (name videoFile) (length fs))
     ++ readyLine (last fs videoFile) :: generateCalls o videoFile) = length fs.
Proof.
  intros Hres Hget Hproc Hlast Hfail.
  destruct (resolve_calls o _ Hres) as [Hg _]. cbn [traceOf] in Hg.
  split.
  - apply (finishes_analyze o w1 videoFile _ Hres).
    apply (finishes_inference o videoFile (last fs videoFile) w1
             (w1 ++ polls (name videoFile) (length fs))).
    + pose proof (runS_awaitReady o videoFile fs w1 0) as E.
      assert (Hf : FileState_eqb (state (last fs videoFile)) FAILED = false)
        by (destruct (state (last fs videoFile)); try reflexivity; congruence).
      rewrite Hf in E. apply finishes_of_run in E.
      * exact E.
      * intros i g Hi. rewrite Hg. apply Hget; exact Hi.
      * exact Hproc.
      * exact Hlast.
    + pose proof (finishes_generate o videoFile
                    ((w1 ++ polls (name videoFile) (length fs))
                     ++ [readyLine (last fs videoFile)])) as F.
      rewrite <- (app_assoc (w1 ++ polls (name videoFile) (length fs))
                    [readyLine (last fs videoFile)]
                    (generateCalls o videoFile)) in F.
      exact F.
  - change (readyLine (last fs videoFile) :: generateCalls o videoFile)
      with ([readyLine (last fs videoFile)] ++ generateCalls o videoFile).
    rewrite !count_app, count_polls_GetFile, Hg.
    rewrite (generateCalls_other o videoFile isGetFile) by reflexivity.
    cbn. lia.
Qed.

(** The second scenario of the spec. *)
Lemma run_resolves_once_the_file_is_ready_witness :
  finishes (service (Some []) PROCESSING [PROCESSING]) resolveRemoteFile []
    (Resolved
       (uploadAttempt ++ [uploadedLine {| file := withState activeFile PROCESSING |}])
       (withState activeFile PROCESSING)) /\
  finishes (service (Some []) PROCESSING [PROCESSING]) analyzeYouTubeVideo []
    (Resolved
       (((uploadAttempt
          ++ [uploadedLine {| file := withState activeFile PROCESSING |}])
         ++ polls "files/ai-persuasion" 2)
        ++ [readyLine activeFile;
            call (CountTokens (request (withState activeFile PROCESSING)));
            tokenCountLine {| totalTokens := 1000 |};
            call (GenerateContent (request (withState activeFile PROCESSING)));
            call (ConsoleLog [LogString "No functions called"])])
       tt).
Proof.
  assert (Hres :
    finishes (service (Some []) PROCESSING [PROCESSING]) resolveRemoteFile []
      (Resolved
         (uploadAttempt ++ [uploadedLine {| file := withState activeFile PROCESSING |}])
         (withState activeFile PROCESSING))).
  { apply (finishes_intro _ 4); reflexivity. }
  split; [exact Hres|].
  apply (run_resolves_once_the_file_is_ready
           (service (Some []) PROCESSING [PROCESSING])
           (withState activeFile PROCESSING) _
           [withState activeFile PROCESSING; withState activeFile ACTIVE] Hres).
  - intros [|[|[|i]]] g H; cbn in H; try discriminate;
      injection H as <-; reflexivity.
  - intros g [<-|[<-|[]]]; reflexivity.
  - discriminate.
  - discriminate.
Defined.
